(** * terraform-provider-appscan: the provider's handlers and their contracts

    A shallow embedding of the Go sources of the provider (package
    [provider]: the provider and its configuration, the Application
    resource, the asset-group and business-unit data sources; and the older
    single-file [main.go]) and the proofs of the properties its
    specification states.

    What is embedded, and how:
    - [schema.ResourceData], the plugin SDK's handle on one resource's local
      state, is a record (schema, id, attribute store); its methods [Id],
      [SetId], [Get], [GetOk] and [Set] are functions on that record.
    - A handler [func(d *schema.ResourceData, m interface{}) error] mutates
      [d] and talks to the remote API.  It is a computation in the monad [M]:
      state = the resource data and the remote world, result = [Ok] (Go's
      [nil] error) or [Err e] (Go's [return err]); a state change made before
      an error is kept, as in Go.
    - The remote API, [net/http] and [encoding/json] are outside the
      repository.  The world and the raw bytes of a body are abstract
      ([World], [bytes]); the HTTP client is the [Client] field of
      [AppScanClient]; [json.Unmarshal] into each of the four target types
      the handlers declare is a function handed to the development.  Every
      theorem therefore holds for all servers and all decoders. *)

From stdpp Require Import base strings gmap list.
From Stdlib Require Import ZArith.

#[local] Set Warnings "-register-all,-clear-no-such-hyp".
#[local] Open Scope Z_scope.

(** ** Go values *)

(** The dynamic values of Go's [interface{}] that the handlers see: what
    [encoding/json] produces for an untyped target and what is handed to
    [d.Set]. *)
Inductive any : Type :=
| ANil
| ABool (b : bool)
| AFloat64 (bits : Z)
| AString (s : string)
| ASlice (l : list any)
| AMap (m : gmap string any).

(** The comma-ok type assertion [v, ok := x.(string)]. *)
Definition asString (x : any) : option string :=
  match x with
  | AString s => Some s
  | _ => None
  end.

(** [v, ok := m[k].(string)] on a [map[string]interface{}]: a missing key
    reads as the nil interface, on which the assertion fails. *)
Definition indexString (m : gmap string any) (k : string) : option string :=
  match m !! k with
  | Some x => asString x
  | None => None
  end.

(** Go's [error] values.  [Errorf] is an error built by [fmt.Errorf] in this
    repository, with its message; [LibError] is an error handed back by a
    library call ([net/http], [io/ioutil], [encoding/json], the plugin SDK);
    [Panic] is a run-time panic (a failed single-value type assertion). *)
Inductive error : Type :=
| Errorf (msg : string)
| LibError (pkg msg : string)
| Panic (msg : string).

Inductive result (A : Type) : Type :=
| Ok (a : A)
| Err (e : error).
Arguments Ok {A} a.
Arguments Err {A} e.

(** ** The plugin SDK: [helper/schema] *)

Module schema.

Inductive ValueType := TypeString | TypeList.

(** [schema.SchemaValidateFunc]: value and attribute name to warnings and
    errors. *)
Definition SchemaValidateFunc : Type :=
  any → string → list string * list error.

(** [schema.Schema], with the fields the repository sets.  [DefaultFunc]
    is only ever [schema.EnvDefaultFunc(env, fallback)], kept as the pair
    of its arguments.  [Elem] is only ever a [*schema.Resource] carrying a
    schema, kept as that schema. *)
Inductive Schema : Type := mkSchema {
  Type_ : ValueType;
  Required : bool;
  Optional : bool;
  Computed : bool;
  ForceNew : bool;
  Sensitive : bool;
  Default : option any;
  DefaultFunc : option (string * option string);
  Description : string;
  ValidateFunc : option SchemaValidateFunc;
  Elem : option (gmap string Schema)
}.

(** A schema entry with every optional field at Go's zero value. *)
Definition field (t : ValueType) (descr : string) : Schema :=
  {| Type_ := t; Required := false; Optional := false; Computed := false;
     ForceNew := false; Sensitive := false; Default := None;
     DefaultFunc := None; Description := descr; ValidateFunc := None;
     Elem := None |}.

Definition required (s : Schema) : Schema :=
  {| Type_ := Type_ s; Required := true; Optional := Optional s;
     Computed := Computed s; ForceNew := ForceNew s;
     Sensitive := Sensitive s; Default := Default s;
     DefaultFunc := DefaultFunc s; Description := Description s;
     ValidateFunc := ValidateFunc s; Elem := Elem s |}.

Definition optional (s : Schema) : Schema :=
  {| Type_ := Type_ s; Required := Required s; Optional := true;
     Computed := Computed s; ForceNew := ForceNew s;
     Sensitive := Sensitive s; Default := Default s;
     DefaultFunc := DefaultFunc s; Description := Description s;
     ValidateFunc := ValidateFunc s; Elem := Elem s |}.

Definition computed (s : Schema) : Schema :=
  {| Type_ := Type_ s; Required := Required s; Optional := Optional s;
     Computed := true; ForceNew := ForceNew s;
     Sensitive := Sensitive s; Default := Default s;
     DefaultFunc := DefaultFunc s; Description := Description s;
     ValidateFunc := ValidateFunc s; Elem := Elem s |}.

Definition forceNew (s : Schema) : Schema :=
  {| Type_ := Type_ s; Required := Required s; Optional := Optional s;
     Computed := Computed s; ForceNew := true;
     Sensitive := Sensitive s; Default := Default s;
     DefaultFunc := DefaultFunc s; Description := Description s;
     ValidateFunc := ValidateFunc s; Elem := Elem s |}.

Definition sensitive (s : Schema) : Schema :=
  {| Type_ := Type_ s; Required := Required s; Optional := Optional s;
     Computed := Computed s; ForceNew := ForceNew s;
     Sensitive := true; Default := Default s;
     DefaultFunc := DefaultFunc s; Description := Description s;
     ValidateFunc := ValidateFunc s; Elem := Elem s |}.

Definition withDefault (v : any) (s : Schema) : Schema :=
  {| Type_ := Type_ s; Required := Required s; Optional := Optional s;
     Computed := Computed s; ForceNew := ForceNew s;
     Sensitive := Sensitive s; Default := Some v;
     DefaultFunc := DefaultFunc s; Description := Description s;
     ValidateFunc := ValidateFunc s; Elem := Elem s |}.

Definition withDefaultFunc (env : string) (dv : option string)
    (s : Schema) : Schema :=
  {| Type_ := Type_ s; Required := Required s; Optional := Optional s;
     Computed := Computed s; ForceNew := ForceNew s;
     Sensitive := Sensitive s; Default := Default s;
     DefaultFunc := Some (env, dv); Description := Description s;
     ValidateFunc := ValidateFunc s; Elem := Elem s |}.

Definition withValidateFunc (f : SchemaValidateFunc) (s : Schema) : Schema :=
  {| Type_ := Type_ s; Required := Required s; Optional := Optional s;
     Computed := Computed s; ForceNew := ForceNew s;
     Sensitive := Sensitive s; Default := Default s;
     DefaultFunc := DefaultFunc s; Description := Description s;
     ValidateFunc := Some f; Elem := Elem s |}.

Definition withElem (e : gmap string Schema) (s : Schema) : Schema :=
  {| Type_ := Type_ s; Required := Required s; Optional := Optional s;
     Computed := Computed s; ForceNew := ForceNew s;
     Sensitive := Sensitive s; Default := Default s;
     DefaultFunc := DefaultFunc s; Description := Description s;
     ValidateFunc := ValidateFunc s; Elem := Some e |}.

(** [schema.ResourceData].  The SDK keeps every leaf attribute as a
    string; the store is split by the two attribute types the repository
    declares: [strs] for [TypeString] attributes, [lists] for [TypeList]
    attributes whose elements are objects of string fields. *)
Record ResourceData : Type := mkResourceData {
  sch : gmap string Schema;
  id : string;
  strs : gmap string string;
  lists : gmap string (list (gmap string string))
}.

(** [d.Id()] *)
Definition Id (d : ResourceData) : string := id d.

(** [d.SetId(v)] *)
Definition SetId (v : string) (d : ResourceData) : ResourceData :=
  {| sch := sch d; id := v; strs := strs d; lists := lists d |}.

Definition object (o : gmap string string) : any := AMap (AString <$> o).

(** [d.Get(k)].  An attribute that is not in the schema reads as nil; a
    [TypeString] attribute always reads as a string: its stored value, or
    the schema's [Default], or the zero value; a [TypeList] attribute
    reads as a slice of objects. *)
Definition Get (d : ResourceData) (k : string) : any :=
  match sch d !! k with
  | None => ANil
  | Some s =>
      match Type_ s with
      | TypeString =>
          match strs d !! k with
          | Some v => AString v
          | None =>
              match Default s with
              | Some (AString v) => AString v
              | _ => AString ""
              end
          end
      | TypeList =>
          match lists d !! k with
          | Some l => ASlice (object <$> l)
          | None => ASlice []
          end
      end
  end.

Definition isZero (x : any) : bool :=
  match x with
  | ANil => true
  | AString s => bool_decide (s = "")
  | ASlice l => bool_decide (l = [])
  | _ => false
  end.

(** [d.GetOk(k)]: the value, and whether it is set to something other
    than the zero value of its type. *)
Definition GetOk (d : ResourceData) (k : string) : any * bool :=
  let v := Get d k in (v, negb (isZero v)).

(** An element of a [TypeList] of objects handed to [d.Set]: a map whose
    keys are attributes of the element schema and whose values are
    strings. *)
Definition asObject (elem : gmap string Schema) (x : any)
    : option (gmap string string) :=
  match x with
  | AMap m =>
      if decide (map_Forall (λ k v, is_Some (elem !! k) ∧ is_Some (asString v)) m)
      then Some (omap asString m)
      else None
  | _ => None
  end.

(** [d.Set(k, v)]: an error when [k] is not an attribute of the schema or
    [v] does not have the attribute's type; nil unsets the attribute. *)
Definition Set_ (k : string) (v : any) (d : ResourceData)
    : result ResourceData :=
  match sch d !! k with
  | None => Err (LibError "schema" ("Invalid address to set: " +:+ k))
  | Some s =>
      match Type_ s, v with
      | TypeString, AString x =>
          Ok {| sch := sch d; id := id d; strs := <[k := x]> (strs d);
                lists := lists d |}
      | TypeString, ANil =>
          Ok {| sch := sch d; id := id d; strs := delete k (strs d);
                lists := lists d |}
      | TypeList, ASlice l =>
          match mapM (asObject (default ∅ (Elem s))) l with
          | Some os =>
              Ok {| sch := sch d; id := id d; strs := strs d;
                    lists := <[k := os]> (lists d) |}
          | None => Err (LibError "schema" (k +:+ ": invalid list element"))
          end
      | TypeList, ANil =>
          Ok {| sch := sch d; id := id d; strs := strs d;
                lists := delete k (lists d) |}
      | _, _ => Err (LibError "schema" (k +:+ ": value has the wrong type"))
      end
  end.

(** [schema.Resource], over the type [H] of its handlers. *)
Record Resource (H : Type) : Type := mkResource {
  Create : option H;
  Read : option H;
  Update : option H;
  Delete : option H;
  Importer : option string;
  Schema_ : gmap string Schema
}.
Arguments mkResource {H}.
Arguments Create {H}.
Arguments Read {H}.
Arguments Update {H}.
Arguments Delete {H}.
Arguments Importer {H}.
Arguments Schema_ {H}.

(** [schema.Provider], over the types of its handlers. *)
Record Provider (H C : Type) : Type := mkProvider {
  ProviderSchema : gmap string Schema;
  ResourcesMap : gmap string (Resource H);
  DataSourcesMap : gmap string (Resource H);
  ConfigureFunc : C
}.
Arguments mkProvider {H C}.
Arguments ProviderSchema {H C}.
Arguments ResourcesMap {H C}.
Arguments DataSourcesMap {H C}.
Arguments ConfigureFunc {H C}.

End schema.

(** ** What lies outside the repository *)

(** The decoded login reply: [struct { Token string `json:"Token"` }]. *)
Record authResp : Type := mkAuthResp { Token : string }.

(** An element of the decoded [Items] array of the asset-group and
    business-unit collections:
    [struct { Id string; Name string; Description string }]. *)
Record Item : Type := mkItem {
  Id : string;
  Name : string;
  Description : string
}.

(** The environment the handlers run in.
    - [World]: the state of everything remote (servers, network).
    - [bytes]: the raw content of a response body.
    - [json.Unmarshal(body, &target)], one function per target type the
      handlers declare; the decoders for the two [struct { Items ... }]
      targets return the [Items] field of the decoded struct.
    - [strings.EqualFold], which [validation.StringInSlice] calls when it
      ignores case. *)
Class Env : Type := mkEnv {
  World : Type;
  bytes : Type;
  UnmarshalAuthResp : bytes → result authResp;
  UnmarshalObject : bytes → result (gmap string any);
  UnmarshalAppItems : bytes → result (list (gmap string any));
  UnmarshalItems : bytes → result (list Item);
  EqualFold : string → string → bool
}.

Section Runtime.

Context `{env : Env}.

(** ** HTTP *)

(** [*http.Request] as the handlers build it.  The handlers format the URL
    as [Sprintf("%s/path?%s", endpoint, query.Encode())]: [URL] is the text
    before the question mark and [Query] the [url.Values] that are encoded
    after it.  [Payload] is the map that was marshalled into the body. *)
Record Request : Type := mkRequest {
  Method : string;
  URL : string;
  Query : gmap string string;
  Header : gmap string string;
  Payload : option (gmap string any)
}.

(** [http.NewRequest(method, url, body)] *)
Definition NewRequest (method url : string) (query : gmap string string)
    (body : option (gmap string any)) : Request :=
  {| Method := method; URL := url; Query := query; Header := ∅;
     Payload := body |}.

(** [req.Header.Set(k, v)] *)
Definition HeaderSet (k v : string) (req : Request) : Request :=
  {| Method := Method req; URL := URL req; Query := Query req;
     Header := <[k := v]> (Header req); Payload := Payload req |}.

(** [*http.Response]: [Body] is what [ioutil.ReadAll(resp.Body)] returns. *)
Record Response : Type := mkResponse {
  StatusCode : Z;
  Status : string;
  Body : result bytes
}.

Definition StatusOK : Z := 200.
Definition StatusCreated : Z := 201.
Definition StatusNoContent : Z := 204.
Definition StatusNotFound : Z := 404.

(** [*http.Client]: sending a request changes the world and yields a
    response or an error.  An error of [http.NewRequest] is folded into this
    error: in every handler both lead to the same [return err], before any
    change to the local state. *)
Definition HttpClient : Type := Request → World → result Response * World.

(** [AppScanClient] holds configuration for API communication. *)
Record AppScanClient : Type := mkAppScanClient {
  ApiEndpoint : string;
  ApiToken : string;
  Client : HttpClient
}.

(** ** The handler monad *)

Definition M (A : Type) : Type :=
  schema.ResourceData → World → result A * schema.ResourceData * World.

#[global] Instance M_ret : MRet M := λ A a d w, (Ok a, d, w).

#[global] Instance M_bind : MBind M := λ A B f c d w,
  match c d w with
  | (Ok a, d', w') => f a d' w'
  | (Err e, d', w') => (Err e, d', w')
  end.

(** [return err] *)
Definition throw {A : Type} (e : error) : M A := λ d w, (Err e, d, w).

(** A library call whose [err] the handler returns when it is not nil. *)
Definition try {A : Type} (r : result A) : M A := λ d w, (r, d, w).

(** A call whose returned error the handler drops. *)
Definition ignore (c : M unit) : M unit := λ d w,
  match c d w with
  | (_, d', w') => (Ok (), d', w')
  end.

Definition d_Id : M string := λ d w, (Ok (schema.Id d), d, w).

Definition d_SetId (v : string) : M unit := λ d w, (Ok (), schema.SetId v d, w).

Definition d_Get (k : string) : M any := λ d w, (Ok (schema.Get d k), d, w).

Definition d_GetOk (k : string) : M (any * bool) := λ d w,
  (Ok (schema.GetOk d k), d, w).

Definition d_Set (k : string) (v : any) : M unit := λ d w,
  match schema.Set_ k v d with
  | Ok d' => (Ok (), d', w)
  | Err e => (Err e, d, w)
  end.

(** The single-value type assertion [x.(string)], which panics on anything
    that is not a string. *)
Definition string_ (x : any) : M string :=
  match x with
  | AString s => mret s
  | _ => throw (Panic "interface conversion: interface {} is not string")
  end.

(** [client.Do(req)] *)
Definition Do (c : HttpClient) (req : Request) : M Response := λ d w,
  match c req w with
  | (r, w') => (r, d, w')
  end.

(** [ioutil.ReadAll(resp.Body)] *)
Definition ReadAll (resp : Response) : M bytes := try (Body resp).


End Runtime.

(** ** The plugin SDK: [helper/validation] *)

Section Validation.

Context `{env : Env}.

Definition dquote : string := String (Ascii.ascii_of_nat 34) "".

(** [fmt]'s [%q] of a [[]string]. *)
Definition quoted (l : list string) : string :=
  "[" +:+ String.concat " " ((λ s, dquote +:+ s +:+ dquote) <$> l) +:+ "]".

(** [validation.StringInSlice(valid, ignoreCase)]: no error exactly when the
    value is a string that equals an element of [valid] (or, when
    [ignoreCase] is set, equals one up to case folding). *)
Definition StringInSlice (valid : list string) (ignoreCase : bool)
    : schema.SchemaValidateFunc := λ i k,
  match i with
  | AString v =>
      if existsb (λ str, bool_decide (v = str) || (ignoreCase && EqualFold v str)) valid
      then ([], [])
      else ([], [LibError "validation"
                   ("expected " +:+ k +:+ " to be one of " +:+ quoted valid
                    +:+ ", got " +:+ v)])
  | _ => ([], [LibError "validation"
                 ("expected type of " +:+ k +:+ " to be string")])
  end.

End Validation.

(** ** Package [provider] *)

Section Provider.

Context `{env : Env}.

(** The type of the [Create], [Read], [Update] and [Delete] fields of a
    [schema.Resource]: [func(d *schema.ResourceData, m interface{}) error],
    with [m] already asserted to [*AppScanClient]. *)
Definition Handler : Type := AppScanClient → M unit.

(** *** The login *)

(** [providerConfigure] authenticates via /api/v4/Account/ApiKeyLogin using
    key_id and key_secret.  [client] is the value of [&http.Client{}]. *)
Definition providerConfigure (client : HttpClient) : M AppScanClient :=
  endpoint ← d_Get "api_endpoint" ≫= string_;
  keyID ← d_Get "key_id" ≫= string_;
  keySecret ← d_Get "key_secret" ≫= string_;
  let payload : gmap string any :=
    {[ "KeyId" := AString keyID; "KeySecret" := AString keySecret ]} in
  let loginURL := endpoint +:+ "/api/v4/Account/ApiKeyLogin" in
  let req := NewRequest "POST" loginURL ∅ (Some payload) in
  let req := HeaderSet "Content-Type" "application/json" req in
  resp ← Do client req;
  if negb (StatusCode resp =? StatusOK) then
    throw (Errorf ("failed to authenticate via API key, status: " +:+ Status resp))
  else
    respBody ← ReadAll resp;
    authResp ← try (UnmarshalAuthResp respBody);
    if bool_decide (Token authResp = "") then
      throw (Errorf "failed to obtain token from API key login response")
    else
      mret {| ApiEndpoint := endpoint; ApiToken := Token authResp;
              Client := client |}.

(** *** The Application resource *)

Definition businessImpacts : list string :=
  ["Unspecified"; "Low"; "Medium"; "High"; "Critical"].

Definition applicationSchema : gmap string schema.Schema :=
  {[ "name" :=
       schema.required (schema.field schema.TypeString
         "The name of the application.");
     "description" :=
       schema.optional (schema.field schema.TypeString
         "A description of the application.");
     "asset_group_id" :=
       schema.forceNew (schema.required (schema.field schema.TypeString
         "The asset group ID to which this application belongs."));
     "business_unit_id" :=
       schema.optional (schema.field schema.TypeString
         "The Business Unit ID associated with this application.");
     "business_impact" :=
       schema.withValidateFunc (StringInSlice businessImpacts false)
         (schema.withDefault (AString "Unspecified")
            (schema.optional (schema.field schema.TypeString
               "The business impact of the application. Allowed values: Unspecified, Low, Medium, High, Critical.")));
     "id" :=
       schema.computed (schema.field schema.TypeString
         "The unique identifier of the application.") ]}.

(** [if v, ok := app[field].(string); ok { d.Set(attr, v) }]; the error
    that [d.Set] returns is dropped. *)
Definition setIfString (app : gmap string any) (field attr : string) : M unit :=
  match indexString app field with
  | Some v => ignore (d_Set attr (AString v))
  | None => mret ()
  end.

Definition resourceAppScanApplicationRead : Handler := λ m,
  id ← d_Id;
  let query : gmap string string := {[ "$filter" := "Id eq " +:+ id ]} in
  let urlStr := ApiEndpoint m +:+ "/api/v4/Apps" in
  let req := NewRequest "GET" urlStr query None in
  let req := HeaderSet "Authorization" ("Bearer " +:+ ApiToken m) req in
  resp ← Do (Client m) req;
  if StatusCode resp =? StatusNotFound then
    d_SetId ""
  else if negb (StatusCode resp =? StatusOK) then
    throw (Errorf ("failed to read application, status: " +:+ Status resp))
  else
    respBody ← ReadAll resp;
    items ← try (UnmarshalAppItems respBody);
    match items with
    | [] => d_SetId ""
    | app :: _ =>
        setIfString app "Name" "name";;
        setIfString app "Description" "description";;
        setIfString app "AssetGroupId" "asset_group_id";;
        setIfString app "BusinessUnitId" "business_unit_id";;
        setIfString app "BusinessImpact" "business_impact"
    end.

Definition resourceAppScanApplicationCreate : Handler := λ m,
  assetGroupID ← d_Get "asset_group_id" ≫= string_;
  name ← d_Get "name" ≫= string_;
  description ← d_Get "description" ≫= string_;
  let payload : gmap string any :=
    {[ "Name" := AString name; "Description" := AString description;
       "AssetGroupId" := AString assetGroupID ]} in
  (* Include BusinessUnitId if provided. *)
  '(bu, ok) ← d_GetOk "business_unit_id";
  payload ← (if ok : bool
             then bu ← string_ bu; mret (<["BusinessUnitId" := AString bu]> payload)
             else mret payload);
  (* Always include BusinessImpact (defaulted to "Unspecified" if not set) *)
  impact ← d_Get "business_impact" ≫= string_;
  let payload := <["BusinessImpact" := AString impact]> payload in
  let url := ApiEndpoint m +:+ "/api/v4/Apps" in
  let req := NewRequest "POST" url ∅ (Some payload) in
  let req := HeaderSet "Authorization" ("Bearer " +:+ ApiToken m) req in
  let req := HeaderSet "Content-Type" "application/json" req in
  resp ← Do (Client m) req;
  if negb (StatusCode resp =? StatusCreated) && negb (StatusCode resp =? StatusOK) then
    throw (Errorf ("failed to create application, status: " +:+ Status resp))
  else
    respBody ← ReadAll resp;
    result ← try (UnmarshalObject respBody);
    match indexString result "Id" with
    | Some id =>
        if bool_decide (id = "") then
          throw (Errorf "failed to retrieve application ID from API response")
        else
          d_SetId id;;
          resourceAppScanApplicationRead m
    | None =>
        throw (Errorf "failed to retrieve application ID from API response")
    end.

Definition resourceAppScanApplicationUpdate : Handler := λ m,
  id ← d_Id;
  (* asset_group_id is ForceNew so it is not updated. *)
  name ← d_Get "name" ≫= string_;
  description ← d_Get "description" ≫= string_;
  let payload : gmap string any :=
    {[ "Name" := AString name; "Description" := AString description ]} in
  '(bu, ok) ← d_GetOk "business_unit_id";
  payload ← (if ok : bool
             then bu ← string_ bu; mret (<["BusinessUnitId" := AString bu]> payload)
             else mret payload);
  impact ← d_Get "business_impact" ≫= string_;
  let payload := <["BusinessImpact" := AString impact]> payload in
  let url := ApiEndpoint m +:+ "/api/v4/Apps/" +:+ id in
  let req := NewRequest "PUT" url ∅ (Some payload) in
  let req := HeaderSet "Authorization" ("Bearer " +:+ ApiToken m) req in
  let req := HeaderSet "Content-Type" "application/json" req in
  resp ← Do (Client m) req;
  if negb (StatusCode resp =? StatusOK) then
    throw (Errorf ("failed to update application, status: " +:+ Status resp))
  else
    resourceAppScanApplicationRead m.

Definition resourceAppScanApplicationDelete : Handler := λ m,
  id ← d_Id;
  let url := ApiEndpoint m +:+ "/api/v4/Apps/" +:+ id in
  let req := NewRequest "DELETE" url ∅ None in
  let req := HeaderSet "Authorization" ("Bearer " +:+ ApiToken m) req in
  resp ← Do (Client m) req;
  if negb (StatusCode resp =? StatusNoContent) && negb (StatusCode resp =? StatusOK) then
    throw (Errorf ("failed to delete application, status: " +:+ Status resp))
  else
    d_SetId "".

Definition resourceAppScanApplication : schema.Resource Handler :=
  {| schema.Create := Some resourceAppScanApplicationCreate;
     schema.Read := Some resourceAppScanApplicationRead;
     schema.Update := Some resourceAppScanApplicationUpdate;
     schema.Delete := Some resourceAppScanApplicationDelete;
     schema.Importer := Some "ImportStatePassthrough";
     schema.Schema_ := applicationSchema |}.

(** *** Data source appscan_asset_groups: the list of asset groups *)

Definition assetGroupsElemSchema : gmap string schema.Schema :=
  {[ "id" :=
       schema.computed (schema.field schema.TypeString
         "The unique identifier of the asset group.");
     "name" :=
       schema.computed (schema.field schema.TypeString
         "The name of the asset group.");
     "description" :=
       schema.computed (schema.field schema.TypeString
         "The description of the asset group.") ]}.

Definition assetGroupsSchema : gmap string schema.Schema :=
  {[ "name" :=
       schema.optional (schema.field schema.TypeString
         "If provided, only asset groups with this exact name are returned.");
     "asset_groups" :=
       schema.withElem assetGroupsElemSchema
         (schema.computed (schema.field schema.TypeList
            "A list of asset groups.")) ]}.

(** The loop body of [dataSourceAssetGroupsRead]: the output object of one
    decoded item. *)
Definition group (ag : Item) : any :=
  AMap {[ "id" := AString (Id ag); "name" := AString (Name ag);
          "description" := AString (Description ag) ]}.

Definition dataSourceAssetGroupsRead : Handler := λ m,
  (* Build the OData filter if a "name" is provided. *)
  '(name, ok) ← d_GetOk "name";
  filterQuery ← (if ok : bool
                 then name ← string_ name; mret ("Name eq '" +:+ name +:+ "'")
                 else mret "");
  let query : gmap string string :=
    if bool_decide (filterQuery ≠ "") then {[ "$filter" := filterQuery ]} else ∅ in
  let urlStr := ApiEndpoint m +:+ "/api/v4/AssetGroups" in
  let req := NewRequest "GET" urlStr query None in
  let req := HeaderSet "Authorization" ("Bearer " +:+ ApiToken m) req in
  resp ← Do (Client m) req;
  if negb (StatusCode resp =? StatusOK) then
    throw (Errorf ("failed to read asset groups, status: " +:+ Status resp))
  else
    respBody ← ReadAll resp;
    items ← try (UnmarshalItems respBody);
    let groups := group <$> items in
    d_Set "asset_groups" (ASlice groups);;
    d_SetId "asset_groups".

Definition dataSourceAssetGroups : schema.Resource Handler :=
  {| schema.Create := None;
     schema.Read := Some dataSourceAssetGroupsRead;
     schema.Update := None;
     schema.Delete := None;
     schema.Importer := None;
     schema.Schema_ := assetGroupsSchema |}.

(** *** Data source appscan_asset_group (asset_group_data_source.go): a
    single asset group by name *)

Definition assetGroupSchema : gmap string schema.Schema :=
  {[ "name" :=
       schema.required (schema.field schema.TypeString
         "The name of the asset group to retrieve.");
     "id" :=
       schema.computed (schema.field schema.TypeString
         "The unique identifier of the asset group.");
     "description" :=
       schema.computed (schema.field schema.TypeString
         "The description of the asset group.") ]}.

Definition dataSourceAssetGroupRead : Handler := λ m,
  assetName ← d_Get "name" ≫= string_;
  (* Build OData filter from the provided name. *)
  let filterQuery := "Name eq '" +:+ assetName +:+ "'" in
  let query : gmap string string := {[ "$filter" := filterQuery ]} in
  let urlStr := ApiEndpoint m +:+ "/api/v4/AssetGroups" in
  let req := NewRequest "GET" urlStr query None in
  let req := HeaderSet "Authorization" ("Bearer " +:+ ApiToken m) req in
  resp ← Do (Client m) req;
  if negb (StatusCode resp =? StatusOK) then
    throw (Errorf ("failed to read asset group, status: " +:+ Status resp))
  else
    body ← ReadAll resp;
    items ← try (UnmarshalItems body);
    match items with
    | [] => throw (Errorf ("no asset group found with name: " +:+ assetName))
    | asset :: [] =>
        d_SetId (Id asset);;
        d_Set "name" (AString (Name asset));;
        d_Set "description" (AString (Description asset))
    | _ :: _ :: _ =>
        throw (Errorf ("multiple asset groups found with name: " +:+ assetName))
    end.

Definition dataSourceAssetGroup : schema.Resource Handler :=
  {| schema.Create := None;
     schema.Read := Some dataSourceAssetGroupRead;
     schema.Update := None;
     schema.Delete := None;
     schema.Importer := None;
     schema.Schema_ := assetGroupSchema |}.

(** *** The business-unit data source: a single business unit by name *)

Definition businessUnitSchema : gmap string schema.Schema :=
  {[ "name" :=
       schema.required (schema.field schema.TypeString
         "The name of the BusinessUnit to retrieve.");
     "id" :=
       schema.computed (schema.field schema.TypeString
         "The unique identifier of the BusinessUnit.");
     "description" :=
       schema.computed (schema.field schema.TypeString
         "The description of the BusinessUnit.") ]}.

Definition dataSourceBusinessUnitRead : Handler := λ m,
  buName ← d_Get "name" ≫= string_;
  (* Build the OData filter using the provided name. *)
  let filterQuery := "Name eq '" +:+ buName +:+ "'" in
  let query : gmap string string := {[ "$filter" := filterQuery ]} in
  (* Call the API GET /api/v4/BusinessUnits with the filter. *)
  let urlStr := ApiEndpoint m +:+ "/api/v4/BusinessUnits" in
  let req := NewRequest "GET" urlStr query None in
  let req := HeaderSet "Authorization" ("Bearer " +:+ ApiToken m) req in
  resp ← Do (Client m) req;
  if negb (StatusCode resp =? StatusOK) then
    throw (Errorf ("failed to read BusinessUnit, status: " +:+ Status resp))
  else
    body ← ReadAll resp;
    items ← try (UnmarshalItems body);
    match items with
    | [] => throw (Errorf ("no BusinessUnit found with name: " +:+ buName))
    | bu :: [] =>
        d_SetId (Id bu);;
        d_Set "name" (AString (Name bu));;
        d_Set "description" (AString (Description bu))
    | _ :: _ :: _ =>
        throw (Errorf ("multiple BusinessUnits found with name: " +:+ buName))
    end.

Definition dataSourceBusinessUnit : schema.Resource Handler :=
  {| schema.Create := None;
     schema.Read := Some dataSourceBusinessUnitRead;
     schema.Update := None;
     schema.Delete := None;
     schema.Importer := None;
     schema.Schema_ := businessUnitSchema |}.

(** *** The provider *)

Definition providerSchema : gmap string schema.Schema :=
  {[ "api_endpoint" :=
       schema.withDefaultFunc "APPSCAN_API_ENDPOINT" (Some "https://cloud.appscan.com/")
         (schema.optional (schema.field schema.TypeString
            "The API endpoint for the AppScan REST API."));
     "key_id" :=
       schema.withDefaultFunc "APPSCAN_KEY_ID" None
         (schema.required (schema.field schema.TypeString
            "The API Key ID for authentication."));
     "key_secret" :=
       schema.sensitive (schema.withDefaultFunc "APPSCAN_KEY_SECRET" None
         (schema.required (schema.field schema.TypeString
            "The API Key Secret for authentication."))) ]}.

(** [Provider] returns the Terraform provider for AppScan. *)
Definition Provider (client : HttpClient)
    : schema.Provider Handler (M AppScanClient) :=
  {| schema.ProviderSchema := providerSchema;
     schema.ResourcesMap :=
       {[ "appscan_application" := resourceAppScanApplication ]};
     schema.DataSourcesMap :=
       {[ "appscan_asset_groups" := dataSourceAssetGroups;
          "appscan_asset_group" := dataSourceAssetGroup ]};
     schema.ConfigureFunc := providerConfigure client |}.

End Provider.

(** ** Package [main]: the single-file provider, main.go

    main.go declares the same functions as package [provider].  Its
    [providerConfigure], [Provider], [resourceAppScanApplicationDelete] and
    asset-group data sources read the same; its Application resource
    predates the business_unit_id and business_impact attributes (an
    earlier revision of the resource in package [provider] reads the same).
    The declarations that differ are embedded here. *)

Module main.
Section Main.

Context `{env : Env}.

Definition applicationSchema : gmap string schema.Schema :=
  {[ "name" :=
       schema.required (schema.field schema.TypeString
         "The name of the application.");
     "description" :=
       schema.optional (schema.field schema.TypeString
         "A description of the application.");
     "asset_group_id" :=
       schema.forceNew (schema.required (schema.field schema.TypeString
         "The asset group ID to which this application belongs."));
     "id" :=
       schema.computed (schema.field schema.TypeString
         "The unique identifier of the application.") ]}.

Definition resourceAppScanApplicationRead : Handler := λ m,
  id ← d_Id;
  (* Build an OData filter without quotes around the id. *)
  let query : gmap string string := {[ "$filter" := "Id eq " +:+ id ]} in
  let urlStr := ApiEndpoint m +:+ "/api/v4/Apps" in
  let req := NewRequest "GET" urlStr query None in
  let req := HeaderSet "Authorization" ("Bearer " +:+ ApiToken m) req in
  resp ← Do (Client m) req;
  if StatusCode resp =? StatusNotFound then
    d_SetId ""
  else if negb (StatusCode resp =? StatusOK) then
    throw (Errorf ("failed to read application, status: " +:+ Status resp))
  else
    respBody ← ReadAll resp;
    items ← try (UnmarshalAppItems respBody);
    match items with
    | [] => d_SetId ""
    | app :: _ =>
        setIfString app "Name" "name";;
        setIfString app "Description" "description"
    end.

Definition resourceAppScanApplicationCreate : Handler := λ m,
  assetGroupID ← d_Get "asset_group_id" ≫= string_;
  name ← d_Get "name" ≫= string_;
  description ← d_Get "description" ≫= string_;
  let payload : gmap string any :=
    {[ "Name" := AString name; "Description" := AString description;
       "AssetGroupId" := AString assetGroupID ]} in
  let url := ApiEndpoint m +:+ "/api/v4/Apps" in
  let req := NewRequest "POST" url ∅ (Some payload) in
  let req := HeaderSet "Authorization" ("Bearer " +:+ ApiToken m) req in
  let req := HeaderSet "Content-Type" "application/json" req in
  resp ← Do (Client m) req;
  if negb (StatusCode resp =? StatusCreated) && negb (StatusCode resp =? StatusOK) then
    throw (Errorf ("failed to create application, status: " +:+ Status resp))
  else
    respBody ← ReadAll resp;
    result ← try (UnmarshalObject respBody);
    match indexString result "Id" with
    | Some id =>
        if bool_decide (id = "") then
          throw (Errorf "failed to retrieve application ID from API response")
        else
          d_SetId id;;
          resourceAppScanApplicationRead m
    | None =>
        throw (Errorf "failed to retrieve application ID from API response")
    end.

Definition resourceAppScanApplicationUpdate : Handler := λ m,
  id ← d_Id;
  (* asset_group_id is ForceNew so it's not updated. *)
  name ← d_Get "name" ≫= string_;
  description ← d_Get "description" ≫= string_;
  let payload : gmap string any :=
    {[ "Name" := AString name; "Description" := AString description ]} in
  let url := ApiEndpoint m +:+ "/api/v4/Apps/" +:+ id in
  let req := NewRequest "PUT" url ∅ (Some payload) in
  let req := HeaderSet "Authorization" ("Bearer " +:+ ApiToken m) req in
  let req := HeaderSet "Content-Type" "application/json" req in
  resp ← Do (Client m) req;
  if negb (StatusCode resp =? StatusOK) then
    throw (Errorf ("failed to update application, status: " +:+ Status resp))
  else
    resourceAppScanApplicationRead m.

Definition resourceAppScanApplication : schema.Resource Handler :=
  {| schema.Create := Some resourceAppScanApplicationCreate;
     schema.Read := Some resourceAppScanApplicationRead;
     schema.Update := Some resourceAppScanApplicationUpdate;
     schema.Delete := Some resourceAppScanApplicationDelete;
     schema.Importer := None;
     schema.Schema_ := applicationSchema |}.

End Main.
End main.

(** ** Vocabulary of the specification *)

Section Vocabulary.

Context `{env : Env}.

(** The error taxonomy of the specification, as the errors the handlers
    build. *)
Definition AuthenticationFailed (status : string) : error :=
  Errorf ("failed to authenticate via API key, status: " +:+ status).

Definition MalformedResponse : error :=
  Errorf "failed to obtain token from API key login response".

Definition CreateFailed (status : string) : error :=
  Errorf ("failed to create application, status: " +:+ status).

Definition CreateFailedNoId : error :=
  Errorf "failed to retrieve application ID from API response".

Definition ReadFailed (what status : string) : error :=
  Errorf ("failed to read " +:+ what +:+ ", status: " +:+ status).

Definition UpdateFailed (status : string) : error :=
  Errorf ("failed to update application, status: " +:+ status).

Definition DeleteFailed (status : string) : error :=
  Errorf ("failed to delete application, status: " +:+ status).

Definition NotFound (what name : string) : error :=
  Errorf ("no " +:+ what +:+ " found with name: " +:+ name).

Definition AmbiguousMatch (what name : string) : error :=
  Errorf ("multiple " +:+ what +:+ "s found with name: " +:+ name).

(** The requests the handlers send. *)
Definition bearer (m : AppScanClient) (req : Request) : Request :=
  HeaderSet "Authorization" ("Bearer " +:+ ApiToken m) req.

Definition jsonContent (req : Request) : Request :=
  HeaderSet "Content-Type" "application/json" req.

Definition loginRequest (endpoint keyID keySecret : string) : Request :=
  jsonContent
    (NewRequest "POST" (endpoint +:+ "/api/v4/Account/ApiKeyLogin") ∅
       (Some {[ "KeyId" := AString keyID; "KeySecret" := AString keySecret ]})).

Definition appCreateRequest (m : AppScanClient) (payload : gmap string any)
    : Request :=
  jsonContent (bearer m
    (NewRequest "POST" (ApiEndpoint m +:+ "/api/v4/Apps") ∅ (Some payload))).

Definition appReadRequest (m : AppScanClient) (id : string) : Request :=
  bearer m
    (NewRequest "GET" (ApiEndpoint m +:+ "/api/v4/Apps")
       {[ "$filter" := "Id eq " +:+ id ]} None).

Definition appUpdateRequest (m : AppScanClient) (id : string)
    (payload : gmap string any) : Request :=
  jsonContent (bearer m
    (NewRequest "PUT" (ApiEndpoint m +:+ "/api/v4/Apps/" +:+ id) ∅ (Some payload))).

Definition appDeleteRequest (m : AppScanClient) (id : string) : Request :=
  bearer m (NewRequest "DELETE" (ApiEndpoint m +:+ "/api/v4/Apps/" +:+ id) ∅ None).

Definition lookupRequest (m : AppScanClient) (collection : string)
    (query : gmap string string) : Request :=
  bearer m (NewRequest "GET" (ApiEndpoint m +:+ "/api/v4/" +:+ collection) query None).

Definition nameFilter (name : string) : gmap string string :=
  {[ "$filter" := "Name eq '" +:+ name +:+ "'" ]}.

(** The string attribute [k] of [d], as [d.Get(k).(string)] reads it where
    [k] is a [TypeString] attribute. *)
Definition attr (d : schema.ResourceData) (k : string) : string :=
  default "" (asString (schema.Get d k)).

(** An attribute is set when [d.GetOk] reports it. *)
Definition isSet (d : schema.ResourceData) (k : string) : Prop :=
  (schema.GetOk d k).2 = true.

(** The attributes that the Application [Read] refreshes, each with the
    field of the response item it is refreshed from. *)
Definition refreshed : list (string * string) :=
  [ ("name", "Name"); ("description", "Description");
    ("asset_group_id", "AssetGroupId");
    ("business_unit_id", "BusinessUnitId");
    ("business_impact", "BusinessImpact") ].

Definition fieldOf (fields : list (string * string)) (a : string)
    : option string :=
  (list_to_map fields : gmap string string) !! a.

(** The output object the asset-group list holds for one item. *)
Definition groupObject (ag : Item) : gmap string string :=
  {[ "id" := Id ag; "name" := Name ag; "description" := Description ag ]}.

(** [k] is a [TypeString] attribute of the schema [s]. *)
Definition isStringAttr (s : gmap string schema.Schema) (k : string) : Prop :=
  ∃ x, s !! k = Some x ∧ schema.Type_ x = schema.TypeString.

(** What [if v, ok := app[field].(string); ok { d.Set(a, v) }] leaves of
    [d]. *)
Definition refresh1 (app : gmap string any) (field a : string)
    (d : schema.ResourceData) : schema.ResourceData :=
  match indexString app field with
  | Some v =>
      match schema.Set_ a (AString v) d with
      | Ok d' => d'
      | Err _ => d
      end
  | None => d
  end.

(** The same for a sequence of attributes, in order. *)
Definition refresh (fields : list (string * string)) (app : gmap string any)
    (d : schema.ResourceData) : schema.ResourceData :=
  foldl (λ d' '(a, field), refresh1 app field a d') d fields.

(** The payload [resourceAppScanApplicationCreate] builds from [d]. *)
Definition createPayload (d : schema.ResourceData) : gmap string any :=
  let payload : gmap string any :=
    {[ "Name" := AString (attr d "name");
       "Description" := AString (attr d "description");
       "AssetGroupId" := AString (attr d "asset_group_id") ]} in
  let payload :=
    if (schema.GetOk d "business_unit_id").2
    then <["BusinessUnitId" := AString (attr d "business_unit_id")]> payload
    else payload in
  <["BusinessImpact" := AString (attr d "business_impact")]> payload.

(** The payload [resourceAppScanApplicationUpdate] builds from [d]. *)
Definition updatePayload (d : schema.ResourceData) : gmap string any :=
  let payload : gmap string any :=
    {[ "Name" := AString (attr d "name");
       "Description" := AString (attr d "description") ]} in
  let payload :=
    if (schema.GetOk d "business_unit_id").2
    then <["BusinessUnitId" := AString (attr d "business_unit_id")]> payload
    else payload in
  <["BusinessImpact" := AString (attr d "business_impact")]> payload.

(** The query [dataSourceAssetGroupsRead] builds from [d]. *)
Definition assetGroupsQuery (d : schema.ResourceData) : gmap string string :=
  if (schema.GetOk d "name").2 then nameFilter (attr d "name") else ∅.

(** The contract of a single-item lookup [read] of the collection
    [collection], on the resource data of its schema [s]: given a reply of
    status 200 to the name-filtered request whose decoded [Items] is
    [items],
    - no item: the NotFound error, [d] as it was;
    - two items or more: the AmbiguousMatch error, [d] as it was;
    - exactly one item: nil, and [d] takes its id, name and description from
      the Id, Name and Description of the item (nothing else changes). *)
Definition SingleLookup (read : Handler) (s : gmap string schema.Schema)
    (collection what : string) : Prop :=
  ∀ m d w resp w' b items,
    schema.sch d = s →
    Client m (lookupRequest m collection (nameFilter (attr d "name"))) w
      = (Ok resp, w') →
    StatusCode resp = 200 → Body resp = Ok b → UnmarshalItems b = Ok items →
    (length items = 0%nat →
       read m d w = (Err (NotFound what (attr d "name")), d, w')) ∧
    ((2 ≤ length items)%nat →
       read m d w = (Err (AmbiguousMatch what (attr d "name")), d, w')) ∧
    (∀ x, items = [x] →
       ∃ d', read m d w = (Ok (), d', w') ∧
         schema.id d' = Id x ∧
         schema.strs d' !! "name" = Some (Name x) ∧
         schema.strs d' !! "description" = Some (Description x) ∧
         attr d' "name" = Name x ∧
         attr d' "description" = Description x ∧
         (∀ k, k ≠ "name" → k ≠ "description" →
               schema.strs d' !! k = schema.strs d !! k) ∧
         schema.lists d' = schema.lists d ∧
         schema.sch d' = schema.sch d).

(** [m] with its HTTP client replaced by [c]. *)
Definition withClient (c : HttpClient) (m : AppScanClient) : AppScanClient :=
  {| ApiEndpoint := ApiEndpoint m; ApiToken := ApiToken m; Client := c |}.

(** A request that carries the bearer token of [m]. *)
Definition authorized (m : AppScanClient) (req : Request) : Prop :=
  Header req !! "Authorization" = Some ("Bearer " +:+ ApiToken m).

(** A call of the API of [m]: one of the given methods, with the bearer
    token of [m], on a URL under the [/api/v4/] of the endpoint of [m]. *)
Definition apiCall (methods : list string) (m : AppScanClient)
    (req : Request) : Prop :=
  Method req ∈ methods ∧ authorized m req ∧
  ∃ path, URL req = ApiEndpoint m +:+ "/api/v4/" +:+ path.

(** The attributes that the Application [Read] of main.go refreshes. *)
Definition mainRefreshed : list (string * string) :=
  [ ("name", "Name"); ("description", "Description") ].

(** The payload [resourceAppScanApplicationCreate] of main.go builds. *)
Definition mainCreatePayload (d : schema.ResourceData) : gmap string any :=
  {[ "Name" := AString (attr d "name");
     "Description" := AString (attr d "description");
     "AssetGroupId" := AString (attr d "asset_group_id") ]}.

(** The payload [resourceAppScanApplicationUpdate] of main.go builds. *)
Definition mainUpdatePayload (d : schema.ResourceData) : gmap string any :=
  {[ "Name" := AString (attr d "name");
     "Description" := AString (attr d "description") ]}.

(** The contract of an Application Read [read] that refreshes the
    attributes [fields], each from its field of the first item.  For every
    reply [resp] of the server to the read request:
    - status 404, or status 200 and no decoded item: nil is returned and
      the local id is empty afterwards, everything else being as it was;
    - any status other than 404 and 200: the ReadFailed error, and [d] is
      left as it was;
    - status 200 and a first item [app]: nil is returned, and on the
      resource data of the schema [s] each attribute of [fields] takes the
      value of its field when [app] holds it as a string; an attribute whose
      field is absent or not a string keeps its value, and so do the id, the
      schema, the lists and every other attribute. *)
Definition ReadContract (read : Handler) (s : gmap string schema.Schema)
    (fields : list (string * string)) : Prop :=
  ∀ m d w resp w',
    Client m (appReadRequest m (schema.Id d)) w = (Ok resp, w') →
    (StatusCode resp = 404 →
       ∃ d', read m d w = (Ok (), d', w') ∧
         schema.id d' = "" ∧ schema.strs d' = schema.strs d ∧
         schema.lists d' = schema.lists d ∧ schema.sch d' = schema.sch d) ∧
    (∀ b, StatusCode resp = 200 → Body resp = Ok b →
       UnmarshalAppItems b = Ok [] →
       ∃ d', read m d w = (Ok (), d', w') ∧
         schema.id d' = "" ∧ schema.strs d' = schema.strs d ∧
         schema.lists d' = schema.lists d ∧ schema.sch d' = schema.sch d) ∧
    (StatusCode resp ≠ 404 → StatusCode resp ≠ 200 →
       read m d w = (Err (ReadFailed "application" (Status resp)), d, w')) ∧
    (∀ b app rest, StatusCode resp = 200 → Body resp = Ok b →
       UnmarshalAppItems b = Ok (app :: rest) →
       schema.sch d = s →
       ∃ d', read m d w = (Ok (), d', w') ∧
         schema.sch d' = schema.sch d ∧
         schema.id d' = schema.id d ∧
         schema.lists d' = schema.lists d ∧
         ∀ a, schema.strs d' !! a =
              match fieldOf fields a with
              | Some field =>
                  match indexString app field with
                  | Some v => Some v
                  | None => schema.strs d !! a
                  end
              | None => schema.strs d !! a
              end).

End Vocabulary.

(** ** A test environment

    A concrete environment to run the handlers in: the world is the log of
    the requests sent so far (latest first); a body is a document that is
    already parsed into Go's generic values; the decoders read the keys
    [Token], [Items], [Id], [Name] and [Description] off such a document. *)

Module Mock.

Definition item (x : any) : option Item :=
  match x with
  | AMap o =>
      Some {| Id := default "" (indexString o "Id");
              Name := default "" (indexString o "Name");
              Description := default "" (indexString o "Description") |}
  | _ => None
  end.

Definition object (x : any) : option (gmap string any) :=
  match x with
  | AMap o => Some o
  | ANil => Some ∅
  | _ => None
  end.

Definition typeError {A : Type} : result A :=
  Err (LibError "json" "cannot unmarshal value into Go value").

Definition items {A : Type} (elem : any → option A) (doc : any)
    : result (list A) :=
  match doc with
  | AMap o =>
      match o !! "Items" with
      | Some (ASlice l) =>
          match mapM elem l with
          | Some xs => Ok xs
          | None => typeError
          end
      | Some ANil | None => Ok []
      | Some _ => typeError
      end
  | _ => typeError
  end.

Definition lower (c : Ascii.ascii) : Ascii.ascii :=
  let n := Ascii.nat_of_ascii c in
  if ((65 <=? n) && (n <=? 90))%nat then Ascii.ascii_of_nat (n + 32) else c.

Fixpoint toLower (s : string) : string :=
  match s with
  | EmptyString => EmptyString
  | String c r => String (lower c) (toLower r)
  end.

#[export] Instance env : Env :=
  {| World := list Request;
     bytes := any;
     UnmarshalAuthResp doc :=
       match doc with
       | AMap o => Ok {| Token := default "" (indexString o "Token") |}
       | _ => typeError
       end;
     UnmarshalObject doc :=
       match object doc with
       | Some o => Ok o
       | None => typeError
       end;
     UnmarshalAppItems := items object;
     UnmarshalItems := items item;
     EqualFold a b := bool_decide (toLower a = toLower b) |}.

(** A client that answers every request by [server] and logs it. *)
Definition client (server : Request → result Response) : HttpClient :=
  λ req w, (server req, req :: w).

Definition reply (code : Z) (status : string) (doc : any) : result Response :=
  Ok {| StatusCode := code; Status := status; Body := Ok doc |}.

(** A server that answers by the method of the request alone. *)
Definition byMethod (post get put delete : result Response)
    : Request → result Response := λ req,
  if bool_decide (Method req = "POST") then post
  else if bool_decide (Method req = "GET") then get
  else if bool_decide (Method req = "PUT") then put
  else delete.

Definition appscan (server : Request → result Response) : AppScanClient :=
  {| ApiEndpoint := "https://cloud.appscan.com";
     ApiToken := "t0k3n";
     Client := client server |}.

(** Fresh resource data for a schema, with the given string attributes. *)
Definition data (s : gmap string schema.Schema) (i : string)
    (attrs : list (string * string)) : schema.ResourceData :=
  {| schema.sch := s; schema.id := i; schema.strs := list_to_map attrs;
     schema.lists := ∅ |}.

Definition doc (fields : list (string * any)) : any := AMap (list_to_map fields).

(** Replies of the remote API. *)
Definition created : result Response :=
  reply 201 "201 Created" (doc [("Id", AString "123")]).

Definition app1 : gmap string any :=
  list_to_map [("Id", AString "123"); ("Name", AString "App1");
               ("AssetGroupId", AString "AG1");
               ("BusinessImpact", AString "Unspecified")].

Definition stranger : gmap string any :=
  list_to_map [("Id", AString "999"); ("Name", AString "Elsewhere");
               ("Description", ANil)].

Definition found (apps : list (gmap string any)) : result Response :=
  reply 200 "200 OK" (doc [("Items", ASlice (AMap <$> apps))]).

Definition named (i n descr : string) : any :=
  doc [("Id", AString i); ("Name", AString n); ("Description", AString descr)].

Definition listed (xs : list any) : result Response :=
  reply 200 "200 OK" (doc [("Items", ASlice xs)]).

Definition updated : result Response := reply 200 "200 OK" (doc []).

Definition deleted : result Response := reply 204 "204 No Content" ANil.

Definition down : result Response :=
  reply 500 "500 Internal Server Error" ANil.

Definition token : result Response :=
  reply 200 "200 OK" (doc [("Token", AString "t0k3n")]).

(** Servers. *)
Definition healthy : Request → result Response :=
  byMethod created (found [app1]) updated deleted.

(** Accepts the POST and the PUT, then fails every read. *)
Definition failingReads : Request → result Response :=
  byMethod created down updated deleted.

(** Answers a read with two applications, a foreign one first. *)
Definition twoApps : Request → result Response :=
  byMethod created (found [stranger; app1]) updated deleted.

Definition oneGroup : Request → result Response :=
  byMethod down (listed [named "g1" "Prod" "Production"]) down down.

Definition threeGroups : Request → result Response :=
  byMethod down
    (listed [named "g1" "Prod" "Production"; named "g2" "Test" "Testing";
             named "g3" "Prod" "Production, again"])
    down down.

Definition login : Request → result Response :=
  byMethod token down down down.

(** Refuses every write, answers reads. *)
Definition readOnly : Request → result Response :=
  byMethod down (found [app1]) down down.

Definition notFound : result Response := reply 404 "404 Not Found" ANil.

(** Accepts the POST, then no longer knows the application. *)
Definition forgetful : Request → result Response :=
  byMethod created notFound updated deleted.

(** A client that serves [server] to the requests that carry the bearer
    token of [appscan], and refuses every other request. *)
Definition guarded (server : Request → result Response) : HttpClient :=
  λ req w,
    if bool_decide (Header req !! "Authorization" = Some "Bearer t0k3n")
    then client server req w
    else (Err (LibError "net/http" "connection refused"), w).

(** Cannot be reached at all. *)
Definition unreachable : Request → result Response :=
  λ _, Err (LibError "net/http" "connection refused").

(** Resource data. *)
Definition newApp : schema.ResourceData :=
  data applicationSchema "" [("name", "App1"); ("asset_group_id", "AG1")].

Definition app123 : schema.ResourceData :=
  data applicationSchema "123"
    [("name", "Renamed"); ("asset_group_id", "AG1");
     ("business_unit_id", "BU7"); ("business_impact", "High")].

Definition prodGroup : schema.ResourceData :=
  data assetGroupSchema "" [("name", "Prod")].

Definition prodUnit : schema.ResourceData :=
  data businessUnitSchema "" [("name", "Prod")].

Definition allGroups : schema.ResourceData := data assetGroupsSchema "" [].

Definition prodGroups : schema.ResourceData :=
  data assetGroupsSchema "" [("name", "Prod")].

Definition mainApp : schema.ResourceData :=
  data main.applicationSchema "123"
    [("name", "Old name"); ("asset_group_id", "AG9")].

Definition config : schema.ResourceData :=
  data providerSchema ""
    [("api_endpoint", "https://cloud.appscan.com"); ("key_id", "k");
     ("key_secret", "s")].

End Mock.

(** * Proofs *)

(** ** How the handlers run *)

(** Runs a handler up to its first call of the client: unfolds the monad
    and reads the attributes through the equations [HG]. *)
Ltac run_with HG :=
  unfold mbind, M_bind, d_Id, d_Get, d_GetOk, d_SetId, Do, ReadAll, try, throw;
  repeat first
    [ rewrite HG by compute_done
    | progress cbn [string_ fst snd asString default negb]
    | progress unfold mret, M_ret, schema.GetOk
    | progress cbv beta iota zeta ].

Ltac run := run_with I.

Section Runs.

Context `{env : Env}.

Lemma Get_string d k :
  isStringAttr (schema.sch d) k → schema.Get d k = AString (attr d k).
Proof.
  intros (x & Hx & Ht). unfold attr, schema.Get. rewrite Hx, Ht.
  destruct (schema.strs d !! k); [reflexivity|].
  destruct (schema.Default x) as [[]|]; reflexivity.
Qed.


Lemma application_attrs d k :
  schema.sch d = applicationSchema →
  k ∈ ["name"; "description"; "asset_group_id"; "business_unit_id";
       "business_impact"] →
  isStringAttr (schema.sch d) k.
Proof.
  intros -> Hk. unfold isStringAttr.
  repeat (apply elem_of_cons in Hk as [->|Hk];
          [eexists; split; reflexivity|]).
  by apply elem_of_nil in Hk.
Qed.

Lemma main_attrs d k :
  schema.sch d = main.applicationSchema →
  k ∈ ["name"; "description"; "asset_group_id"] →
  isStringAttr (schema.sch d) k.
Proof.
  intros -> Hk. unfold isStringAttr.
  repeat (apply elem_of_cons in Hk as [->|Hk];
          [eexists; split; reflexivity|]).
  by apply elem_of_nil in Hk.
Qed.

Lemma Set_string a v d :
  isStringAttr (schema.sch d) a →
  schema.Set_ a (AString v) d =
  Ok {| schema.sch := schema.sch d; schema.id := schema.id d;
        schema.strs := <[a := v]> (schema.strs d);
        schema.lists := schema.lists d |}.
Proof.
  intros (x & Hx & Ht). unfold schema.Set_. rewrite Hx, Ht. reflexivity.
Qed.

(** [d.Set] changes neither the schema nor the id, whatever it returns. *)
Lemma Set_frame k v d d' :
  schema.Set_ k v d = Ok d' →
  schema.sch d' = schema.sch d ∧ schema.id d' = schema.id d.
Proof.
  unfold schema.Set_. intros H.
  destruct (schema.sch d !! k) as [s|]; [|discriminate].
  destruct (schema.Type_ s), v; try discriminate;
    try (destruct (mapM _ _); try discriminate);
    injection H as <-; split; reflexivity.
Qed.

Lemma setIfString_run app field a d w :
  setIfString app field a d w = (Ok (), refresh1 app field a d, w).
Proof.
  unfold setIfString, refresh1, ignore, d_Set.
  destruct (indexString app field); [|reflexivity].
  destruct (schema.Set_ _ _ _); reflexivity.
Qed.

Lemma refresh1_frame app field a d :
  schema.sch (refresh1 app field a d) = schema.sch d ∧
  schema.id (refresh1 app field a d) = schema.id d.
Proof.
  unfold refresh1. destruct (indexString app field); [|done].
  destruct (schema.Set_ _ _ _) eqn:E; [|done]. by eapply Set_frame.
Qed.

Lemma refresh_frame fields app d :
  schema.sch (refresh fields app d) = schema.sch d ∧
  schema.id (refresh fields app d) = schema.id d.
Proof.
  unfold refresh. revert d.
  induction fields as [|[a f] fields IH]; intros d; [done|]. cbn.
  destruct (IH (refresh1 app f a d)) as [-> ->]. apply refresh1_frame.
Qed.

(** On a string attribute, one refresh step stores the field of the item
    when it is there as a string, and keeps everything else. *)
Lemma refresh1_string app field a d :
  isStringAttr (schema.sch d) a →
  schema.lists (refresh1 app field a d) = schema.lists d ∧
  ∀ k, schema.strs (refresh1 app field a d) !! k =
       if decide (k = a)
       then match indexString app field with
            | Some v => Some v
            | None => schema.strs d !! k
            end
       else schema.strs d !! k.
Proof.
  intros H. unfold refresh1.
  destruct (indexString app field) as [v|].
  - rewrite Set_string by done. cbn. split; [done|]. intros k.
    case_decide as E; [subst; apply lookup_insert_eq|].
    by apply lookup_insert_ne.
  - split; [done|]. intros k. by case_decide.
Qed.

(** The outcome of [fields] depends on the item only through the fields it
    names. *)
Lemma refresh_ext fields app1 app2 d :
  (∀ a f, (a, f) ∈ fields → indexString app1 f = indexString app2 f) →
  refresh fields app1 d = refresh fields app2 d.
Proof.
  unfold refresh. revert d.
  induction fields as [|[a f] fields IH]; intros d H; [done|]. cbn.
  unfold refresh1 at 2 4. rewrite (H a f) by apply list_elem_of_here.
  apply IH. intros a' f' Hin. apply (H a' f'). by apply list_elem_of_further.
Qed.

Lemma Read_run m d w :
  resourceAppScanApplicationRead m d w =
  match Client m (appReadRequest m (schema.Id d)) w with
  | (Err e, w') => (Err e, d, w')
  | (Ok resp, w') =>
      if StatusCode resp =? StatusNotFound then (Ok (), schema.SetId "" d, w')
      else if negb (StatusCode resp =? StatusOK)
      then (Err (ReadFailed "application" (Status resp)), d, w')
      else
        match Body resp with
        | Err e => (Err e, d, w')
        | Ok b =>
            match UnmarshalAppItems b with
            | Err e => (Err e, d, w')
            | Ok [] => (Ok (), schema.SetId "" d, w')
            | Ok (app :: _) => (Ok (), refresh refreshed app d, w')
            end
        end
  end.
Proof.
  unfold resourceAppScanApplicationRead, appReadRequest, bearer. run.
  destruct (Client m _ w) as [[resp|e] w']; [|reflexivity].
  destruct (_ =? StatusNotFound); [reflexivity|].
  destruct (negb _); [reflexivity|].
  destruct (Body resp) as [b|]; [|reflexivity].
  destruct (UnmarshalAppItems b) as [[|app rest]|]; try reflexivity.
  rewrite !setIfString_run. reflexivity.
Qed.

Lemma main_Read_run m d w :
  main.resourceAppScanApplicationRead m d w =
  match Client m (appReadRequest m (schema.Id d)) w with
  | (Err e, w') => (Err e, d, w')
  | (Ok resp, w') =>
      if StatusCode resp =? StatusNotFound then (Ok (), schema.SetId "" d, w')
      else if negb (StatusCode resp =? StatusOK)
      then (Err (ReadFailed "application" (Status resp)), d, w')
      else
        match Body resp with
        | Err e => (Err e, d, w')
        | Ok b =>
            match UnmarshalAppItems b with
            | Err e => (Err e, d, w')
            | Ok [] => (Ok (), schema.SetId "" d, w')
            | Ok (app :: _) =>
                (Ok (), refresh [("name", "Name"); ("description", "Description")] app d, w')
            end
        end
  end.
Proof.
  unfold main.resourceAppScanApplicationRead, appReadRequest, bearer. run.
  destruct (Client m _ w) as [[resp|e] w']; [|reflexivity].
  destruct (_ =? StatusNotFound); [reflexivity|].
  destruct (negb _); [reflexivity|].
  destruct (Body resp) as [b|]; [|reflexivity].
  destruct (UnmarshalAppItems b) as [[|app rest]|]; try reflexivity.
  rewrite !setIfString_run. reflexivity.
Qed.

Lemma Create_run m d w :
  schema.sch d = applicationSchema →
  resourceAppScanApplicationCreate m d w =
  match Client m (appCreateRequest m (createPayload d)) w with
  | (Err e, w') => (Err e, d, w')
  | (Ok resp, w') =>
      if negb (StatusCode resp =? StatusCreated) && negb (StatusCode resp =? StatusOK)
      then (Err (CreateFailed (Status resp)), d, w')
      else
        match Body resp with
        | Err e => (Err e, d, w')
        | Ok b =>
            match UnmarshalObject b with
            | Err e => (Err e, d, w')
            | Ok result =>
                match indexString result "Id" with
                | Some id =>
                    if bool_decide (id = "") then (Err CreateFailedNoId, d, w')
                    else resourceAppScanApplicationRead m (schema.SetId id d) w'
                | None => (Err CreateFailedNoId, d, w')
                end
            end
        end
  end.
Proof.
  intros Hs.
  pose proof (λ k H, Get_string d k (application_attrs d k Hs H)) as HG.
  unfold resourceAppScanApplicationCreate, createPayload, appCreateRequest,
    jsonContent, bearer, attr, schema.GetOk.
  run_with HG.
  destruct (schema.isZero _); run_with HG.
  all: destruct (Client m _ w) as [[resp|e] w']; [|reflexivity].
  all: destruct (_ && _); [reflexivity|].
  all: destruct (Body resp); [|reflexivity].
  all: destruct (UnmarshalObject _); [|reflexivity].
  all: destruct (indexString _ _); [|reflexivity].
  all: destruct (bool_decide _); reflexivity.
Qed.

Lemma Update_run m d w :
  schema.sch d = applicationSchema →
  resourceAppScanApplicationUpdate m d w =
  match Client m (appUpdateRequest m (schema.Id d) (updatePayload d)) w with
  | (Err e, w') => (Err e, d, w')
  | (Ok resp, w') =>
      if negb (StatusCode resp =? StatusOK)
      then (Err (UpdateFailed (Status resp)), d, w')
      else resourceAppScanApplicationRead m d w'
  end.
Proof.
  intros Hs.
  pose proof (λ k H, Get_string d k (application_attrs d k Hs H)) as HG.
  unfold resourceAppScanApplicationUpdate, updatePayload, appUpdateRequest,
    jsonContent, bearer, attr, schema.GetOk.
  run_with HG.
  destruct (schema.isZero _); run_with HG.
  all: destruct (Client m _ w) as [[resp|e] w']; [|reflexivity].
  all: destruct (negb _); reflexivity.
Qed.

Lemma Delete_run m d w :
  resourceAppScanApplicationDelete m d w =
  match Client m (appDeleteRequest m (schema.Id d)) w with
  | (Err e, w') => (Err e, d, w')
  | (Ok resp, w') =>
      if negb (StatusCode resp =? StatusNoContent) && negb (StatusCode resp =? StatusOK)
      then (Err (DeleteFailed (Status resp)), d, w')
      else (Ok (), schema.SetId "" d, w')
  end.
Proof.
  unfold resourceAppScanApplicationDelete, appDeleteRequest, bearer. run.
  destruct (Client m _ w) as [[resp|e] w']; [|reflexivity].
  destruct (_ && _); reflexivity.
Qed.

End Runs.

(** ** The Application resource *)

Section Application.

Context `{env : Env}.

(** A sequence of refresh steps over distinct string attributes: each
    attribute it names takes the field of the item when the item has it as
    a string; every other attribute, and every named attribute whose field
    is absent or not a string, keeps its value. *)
Lemma refresh_strings fields app d :
  NoDup fields.*1 →
  (∀ a f, (a, f) ∈ fields → isStringAttr (schema.sch d) a) →
  schema.lists (refresh fields app d) = schema.lists d ∧
  ∀ k, schema.strs (refresh fields app d) !! k =
       match fieldOf fields k with
       | Some field =>
           match indexString app field with
           | Some v => Some v
           | None => schema.strs d !! k
           end
       | None => schema.strs d !! k
       end.
Proof.
  unfold refresh, fieldOf. revert d.
  induction fields as [|[a f] fields IH]; intros d Hnd Hattr.
  { split; [done|]. intros k. reflexivity. }
  apply NoDup_cons in Hnd as [Hfresh Hnd]. cbn [foldl].
  destruct (refresh1_string app f a d) as [Hl Hs].
  { apply (Hattr a f), list_elem_of_here. }
  destruct (IH (refresh1 app f a d) Hnd) as [Hl' Hs'].
  { intros a' f' Hin. destruct (refresh1_frame app f a d) as [-> _].
    apply (Hattr a' f'). by apply list_elem_of_further. }
  split; [congruence|]. intros k. rewrite Hs', Hs. cbn [list_to_map foldr].
  case_decide as E.
  - subst k. rewrite lookup_insert_eq.
    by rewrite (not_elem_of_list_to_map_1 (M := gmap string) _ a Hfresh).
  - rewrite lookup_insert_ne by done. reflexivity.
Qed.

(** Both Reads meet the contract: the one of package [provider] with its
    five attributes, the one of main.go with name and description. *)
Lemma Read_cases (read : Handler) s fields :
  NoDup fields.*1 →
  (∀ d a f, schema.sch d = s → (a, f) ∈ fields →
            isStringAttr (schema.sch d) a) →
  (∀ m d w,
     read m d w =
     match Client m (appReadRequest m (schema.Id d)) w with
     | (Err e, w') => (Err e, d, w')
     | (Ok resp, w') =>
         if StatusCode resp =? StatusNotFound
         then (Ok (), schema.SetId "" d, w')
         else if negb (StatusCode resp =? StatusOK)
         then (Err (ReadFailed "application" (Status resp)), d, w')
         else
           match Body resp with
           | Err e => (Err e, d, w')
           | Ok b =>
               match UnmarshalAppItems b with
               | Err e => (Err e, d, w')
               | Ok [] => (Ok (), schema.SetId "" d, w')
               | Ok (app :: _) => (Ok (), refresh fields app d, w')
               end
           end
     end) →
  ReadContract read s fields.
Proof.
  intros Hnd Hattr Hrun m d w resp w' Hdo. rewrite Hrun, Hdo.
  unfold StatusNotFound, StatusOK. split_and!.
  - intros ->. eexists. split; [reflexivity|]. done.
  - intros b -> -> ->. eexists. split; [reflexivity|]. done.
  - intros H404 H200.
    destruct (Z.eqb_spec (StatusCode resp) 404); [done|].
    destruct (Z.eqb_spec (StatusCode resp) 200); [done|]. reflexivity.
  - intros b app rest -> -> -> Hs. eexists. split; [reflexivity|].
    destruct (refresh_frame fields app d) as [Hsch Hid].
    destruct (refresh_strings fields app d Hnd) as [Hl Hstr].
    { intros a f. by apply Hattr. }
    done.
Qed.

Lemma Read_meets_contract :
  ReadContract resourceAppScanApplicationRead applicationSchema refreshed.
Proof.
  apply Read_cases; [compute_done| |apply Read_run].
  intros d a f Hs Hin. apply application_attrs; [done|]. unfold refreshed in Hin.
  repeat (apply elem_of_cons in Hin as [[= -> ->]|Hin]; [compute_done|]).
  by apply elem_of_nil in Hin.
Qed.

Lemma main_Read_meets_contract :
  ReadContract main.resourceAppScanApplicationRead main.applicationSchema
    mainRefreshed.
Proof.
  apply Read_cases; [compute_done| |apply main_Read_run].
  intros d a f Hs Hin. apply main_attrs; [done|]. unfold mainRefreshed in Hin.
  repeat (apply elem_of_cons in Hin as [[= -> ->]|Hin]; [compute_done|]).
  by apply elem_of_nil in Hin.
Qed.

(** C1, as the code has it.  Application Read, for every local id (the
    empty one included) and every reply of the server to the read request:
    - status 404: nil is returned and the local id is empty afterwards,
      everything else being as it was;
    - status 200 and an empty decoded [Items]: the same;
    - any status other than 404 and 200: the ReadFailed error, and [d] is
      left as it was;
    - status 200 and a first item [app]: nil is returned.  The Read of
      package [provider], on the resource data of its schema, gives name,
      description, asset_group_id, business_unit_id and business_impact the
      values of the fields Name, Description, AssetGroupId, BusinessUnitId
      and BusinessImpact that [app] holds as strings.  The Read of main.go,
      on the resource data of its schema (which has no business_unit_id and
      no business_impact), gives name and description the values of the
      fields Name and Description that [app] holds as strings.  In both, an
      attribute whose field is absent (or not a string) keeps its value, and
      so do the id, the schema and every other attribute. *)
Theorem Read_contract :
  ReadContract resourceAppScanApplicationRead applicationSchema refreshed ∧
  ReadContract main.resourceAppScanApplicationRead main.applicationSchema
    mainRefreshed.
Proof. split; [apply Read_meets_contract|apply main_Read_meets_contract]. Qed.

(** C10.  When the reply to the read request has status 200 and two or more
    decoded items, Read returns nil (there is no ambiguity error) and the
    state it leaves is built from the first item [app] and the state
    before; the further items play no role.  On the resource data of the
    Application schema the id is kept and each of the five refreshed
    attributes takes the value of its field when [app] holds it as a
    string, and keeps its value otherwise; nothing else changes.  Of [app],
    only the refreshed fields matter: an item that agrees with [app] on them
    leaves the same state, so the field Id of [app] is never looked at, and
    the local id is kept whatever that field holds.  The same is true of
    the Read of main.go, on its schema, with name and description only. *)
Theorem Read_takes_first_item m d w resp w' b app other rest :
  Client m (appReadRequest m (schema.Id d)) w = (Ok resp, w') →
  StatusCode resp = 200 → Body resp = Ok b →
  UnmarshalAppItems b = Ok (app :: other :: rest) →
  (resourceAppScanApplicationRead m d w =
     (Ok (), refresh refreshed app d, w') ∧
   main.resourceAppScanApplicationRead m d w =
     (Ok (), refresh [("name", "Name"); ("description", "Description")] app d, w')) ∧
  (∀ app', (∀ a f, (a, f) ∈ refreshed → indexString app' f = indexString app f) →
     refresh refreshed app' d = refresh refreshed app d ∧
     refresh [("name", "Name"); ("description", "Description")] app' d =
       refresh [("name", "Name"); ("description", "Description")] app d) ∧
  (∀ x, refresh refreshed (<["Id" := x]> app) d = refresh refreshed app d) ∧
  schema.id (refresh refreshed app d) = schema.id d ∧
  (schema.sch d = applicationSchema →
     ∃ d', resourceAppScanApplicationRead m d w = (Ok (), d', w') ∧
       schema.sch d' = schema.sch d ∧
       schema.id d' = schema.id d ∧
       schema.lists d' = schema.lists d ∧
       ∀ a, schema.strs d' !! a =
            match fieldOf refreshed a with
            | Some field =>
                match indexString app field with
                | Some v => Some v
                | None => schema.strs d !! a
                end
            | None => schema.strs d !! a
            end) ∧
  (schema.sch d = main.applicationSchema →
     ∃ d', main.resourceAppScanApplicationRead m d w = (Ok (), d', w') ∧
       schema.sch d' = schema.sch d ∧
       schema.id d' = schema.id d ∧
       schema.lists d' = schema.lists d ∧
       ∀ a, schema.strs d' !! a =
            match fieldOf mainRefreshed a with
            | Some field =>
                match indexString app field with
                | Some v => Some v
                | None => schema.strs d !! a
                end
            | None => schema.strs d !! a
            end).
Proof.
  intros Hdo Hst Hb Hit.
  destruct (Read_meets_contract m d w resp w' Hdo) as (_ & _ & _ & Hp).
  destruct (main_Read_meets_contract m d w resp w' Hdo) as (_ & _ & _ & Hm).
  specialize (Hp b app (other :: rest) Hst Hb Hit).
  specialize (Hm b app (other :: rest) Hst Hb Hit).
  rewrite Read_run, main_Read_run, Hdo, Hst, Hb, Hit in *. cbn -[refresh] in *.
  split; [done|]. split_and!; [| | |exact Hp|exact Hm].
  - intros app' H. split; apply refresh_ext; [done|].
    intros a f Hin. apply (H a f). unfold refreshed.
    repeat (apply elem_of_cons in Hin as [[= -> ->]|Hin]; [compute_done|]).
    by apply elem_of_nil in Hin.
  - intros x. apply refresh_ext. intros a f Hin. unfold indexString.
    rewrite lookup_insert_ne; [done|]. unfold refreshed in Hin.
    repeat (apply elem_of_cons in Hin as [[= -> ->]|Hin]; [done|]).
    by apply elem_of_nil in Hin.
  - apply refresh_frame.
Qed.

Lemma attr_frame d d' k :
  schema.sch d' = schema.sch d →
  schema.strs d' !! k = schema.strs d !! k →
  attr d' k = attr d k.
Proof.
  intros Hs Hk. unfold attr, schema.Get. rewrite Hs, Hk.
  destruct (schema.sch d !! k) as [x|]; [|done].
  destruct (schema.Type_ x); [done|].
  by destruct (schema.lists d' !! k), (schema.lists d !! k).
Qed.

Lemma attr_stored d k v :
  isStringAttr (schema.sch d) k → schema.strs d !! k = Some v → attr d k = v.
Proof.
  intros (x & Hx & Ht) Hk. unfold attr, schema.Get. by rewrite Hx, Ht, Hk.
Qed.



(** Read changes [d] only when it returns nil. *)
Lemma Read_error_frame m d w e d' w' :
  resourceAppScanApplicationRead m d w = (Err e, d', w') → d' = d.
Proof.
  rewrite Read_run.
  destruct (Client m _ w) as [[resp|] ?]; [|congruence].
  destruct (_ =? StatusNotFound); [congruence|].
  destruct (negb _); [congruence|].
  destruct (Body resp) as [b|]; [|congruence].
  destruct (UnmarshalAppItems b) as [[|app rest]|]; congruence.
Qed.

(** Whatever Read returns, it keeps the schema, and it keeps asset_group_id
    unless the first item of a 200 reply holds another one. *)
Lemma Read_asset_group_id m d w r d' w' :
  schema.sch d = applicationSchema →
  resourceAppScanApplicationRead m d w = (r, d', w') →
  (∀ resp w1 b app rest,
     Client m (appReadRequest m (schema.Id d)) w = (Ok resp, w1) →
     StatusCode resp = 200 → Body resp = Ok b →
     UnmarshalAppItems b = Ok (app :: rest) →
     ∀ v, indexString app "AssetGroupId" = Some v → v = attr d "asset_group_id") →
  attr d' "asset_group_id" = attr d "asset_group_id".
Proof.
  intros Hs Hrun Hecho. rewrite Read_run in Hrun.
  destruct (Client m _ w) as [[resp|] w1] eqn:Hdo; [|congruence].
  destruct (_ =? StatusNotFound); [by injection Hrun as _ <- _|].
  destruct (Z.eqb_spec (StatusCode resp) StatusOK) as [Hst|]; [|by injection Hrun as _ <- _].
  cbn [negb] in Hrun.
  destruct (Body resp) as [b|] eqn:Hb; [|congruence].
  destruct (UnmarshalAppItems b) as [[|app rest]|] eqn:Hit;
    [by injection Hrun as _ <- _| |congruence].
  destruct (refresh_frame refreshed app d) as [Hsch _].
  destruct (refresh_strings refreshed app d) as [_ Hstr];
    [| |set (d1 := refresh refreshed app d) in *; injection Hrun as _ <- _].
  { compute_done. }
  { intros a f Hin. apply application_attrs; [done|]. unfold refreshed in Hin.
    repeat (apply elem_of_cons in Hin as [[= -> ->]|Hin]; [compute_done|]).
    by apply elem_of_nil in Hin. }
  specialize (Hstr "asset_group_id").
  change (fieldOf refreshed "asset_group_id") with (Some "AssetGroupId") in Hstr.
  cbv beta iota in Hstr.
  destruct (indexString app "AssetGroupId") as [v|] eqn:Hv.
  - rewrite <- (Hecho resp w1 b app rest eq_refl Hst Hb Hit v Hv).
    apply attr_stored; [|done]. rewrite Hsch.
    apply application_attrs; [done|compute_done].
  - by apply attr_frame.
Qed.

(** C3.  Application Update, on the resource data of the Application
    schema.  The payload of the PUT to the endpoint of the id holds Name,
    Description and BusinessImpact, holds BusinessUnitId exactly when
    business_unit_id is set, and holds nothing else: AssetGroupId is never
    in it.  A reply of a status other than 200 gives the UpdateFailed error
    with [d] as it was; a reply of status 200 continues as Read on the same
    [d].  Whatever Update returns, asset_group_id reads afterwards as it
    did before, provided the item the following Read receives carries no
    AssetGroupId other than the stored one. *)
Theorem Update_contract m d w :
  schema.sch d = applicationSchema →
  let payload := updatePayload d in
  let put := appUpdateRequest m (schema.Id d) payload in
  (URL put = ApiEndpoint m +:+ "/api/v4/Apps/" +:+ schema.Id d ∧
   Payload put = Some payload ∧
   payload !! "Name" = Some (AString (attr d "name")) ∧
   payload !! "Description" = Some (AString (attr d "description")) ∧
   payload !! "BusinessImpact" = Some (AString (attr d "business_impact")) ∧
   (isSet d "business_unit_id" →
      payload !! "BusinessUnitId" = Some (AString (attr d "business_unit_id"))) ∧
   (¬ isSet d "business_unit_id" → payload !! "BusinessUnitId" = None) ∧
   payload !! "AssetGroupId" = None ∧
   dom payload ⊆ {[ "Name"; "Description"; "BusinessImpact"; "BusinessUnitId" ]}) ∧
  (∀ resp w', Client m put w = (Ok resp, w') →
     (StatusCode resp ≠ 200 →
        resourceAppScanApplicationUpdate m d w =
          (Err (UpdateFailed (Status resp)), d, w')) ∧
     (StatusCode resp = 200 →
        resourceAppScanApplicationUpdate m d w =
          resourceAppScanApplicationRead m d w')) ∧
  (∀ r d' w'', resourceAppScanApplicationUpdate m d w = (r, d', w'') →
     (∀ resp w1 resp' w2 b app rest,
        Client m put w = (Ok resp, w1) →
        Client m (appReadRequest m (schema.Id d)) w1 = (Ok resp', w2) →
        StatusCode resp' = 200 → Body resp' = Ok b →
        UnmarshalAppItems b = Ok (app :: rest) →
        ∀ v, indexString app "AssetGroupId" = Some v →
             v = attr d "asset_group_id") →
     attr d' "asset_group_id" = attr d "asset_group_id").
Proof.
  intros Hs payload put.
  split; [|rewrite (Update_run _ _ _ Hs); fold payload; fold put; split].
  - subst put payload. unfold updatePayload, isSet. split_and!.
    + reflexivity.
    + reflexivity.
    + by destruct (schema.GetOk d "business_unit_id").2.
    + by destruct (schema.GetOk d "business_unit_id").2.
    + by destruct (schema.GetOk d "business_unit_id").2.
    + by intros ->.
    + by intros ->%not_true_is_false.
    + by destruct (schema.GetOk d "business_unit_id").2.
    + destruct (schema.GetOk d "business_unit_id").2;
        rewrite !dom_insert_L, dom_singleton_L; set_solver.
  - intros resp w' ->. unfold StatusOK. split.
    + intros H200. by destruct (Z.eqb_spec (StatusCode resp) 200).
    + by intros ->.
  - intros r d' w'' Hrun Hecho.
    destruct (Client m put w) as [[resp|] w1] eqn:Hdo;
      [|by injection Hrun as _ <- _].
    destruct (negb _); [by injection Hrun as _ <- _|].
    eapply Read_asset_group_id; [done|exact Hrun|].
    intros resp' w2 b app rest. exact (Hecho resp w1 resp' w2 b app rest eq_refl).
Qed.

(** C8, as the code has it.  On the resource data of the Application
    schema, Read, Update and Delete are all-or-nothing: when one of them
    returns an error, [d] is as it was before the call.  Create is so up to
    the point where it stores the new id: when Create returns an error,
    either [d] is as it was, or the POST was answered with status 200 or
    201 and a non-empty string Id, the Read that followed returned that
    error, and [d] differs from its value before the call in its id alone,
    which is the Id the server returned. *)
Theorem errors_keep_state m d w e d' w' :
  schema.sch d = applicationSchema →
  (resourceAppScanApplicationRead m d w = (Err e, d', w') → d' = d) ∧
  (resourceAppScanApplicationUpdate m d w = (Err e, d', w') → d' = d) ∧
  (resourceAppScanApplicationDelete m d w = (Err e, d', w') → d' = d) ∧
  (resourceAppScanApplicationCreate m d w = (Err e, d', w') →
     d' = d ∨
     ∃ resp w1 b result id,
       Client m (appCreateRequest m (createPayload d)) w = (Ok resp, w1) ∧
       (StatusCode resp = 200 ∨ StatusCode resp = 201) ∧
       Body resp = Ok b ∧ UnmarshalObject b = Ok result ∧
       indexString result "Id" = Some id ∧ id ≠ "" ∧
       resourceAppScanApplicationRead m (schema.SetId id d) w1 =
         (Err e, schema.SetId id d, w') ∧
       d' = schema.SetId id d).
Proof.
  intros Hs. split_and!.
  - apply Read_error_frame.
  - rewrite (Update_run _ _ _ Hs).
    destruct (Client m _ w) as [[resp|] w1]; [|congruence].
    destruct (negb _); [congruence|]. apply Read_error_frame.
  - rewrite Delete_run.
    destruct (Client m _ w) as [[resp|] w1]; [|congruence].
    destruct (_ && _); congruence.
  - rewrite (Create_run _ _ _ Hs). unfold StatusCreated, StatusOK.
    destruct (Client m _ w) as [[resp|] w1]; [|left; congruence].
    destruct (Z.eqb_spec (StatusCode resp) 201) as [H201|];
      [|destruct (Z.eqb_spec (StatusCode resp) 200) as [H200|];
        [|left; cbn in *; congruence]].
    all: cbn [negb andb].
    all: destruct (Body resp) as [b|] eqn:Hb; [|left; congruence].
    all: destruct (UnmarshalObject b) as [result|] eqn:Hres; [|left; congruence].
    all: destruct (indexString result "Id") as [id|] eqn:Hidx; [|left; congruence].
    all: case_bool_decide as Hid; [left; congruence|].
    all: intros Hread; right; exists resp, w1, b, result, id.
    all: pose proof (Read_error_frame _ _ _ _ _ _ Hread) as ->.
    all: split_and!; auto.
Qed.

End Application.

(** ** The data sources *)

Section DataSources.

Context `{env : Env}.

Lemma lookup_attrs s d k :
  schema.sch d = s →
  s = assetGroupSchema ∨ s = businessUnitSchema →
  k ∈ ["name"; "description"] →
  isStringAttr (schema.sch d) k.
Proof.
  intros -> Hs Hk. unfold isStringAttr.
  destruct Hs as [-> | ->];
    repeat (apply elem_of_cons in Hk as [->|Hk];
            [eexists; split; reflexivity|]);
    by apply elem_of_nil in Hk.
Qed.

(** What the single-item lookups leave of [d] on success. *)
Lemma found_run x d w :
  isStringAttr (schema.sch d) "name" →
  isStringAttr (schema.sch d) "description" →
  (d_SetId (Id x);;
   d_Set "name" (AString (Name x));;
   d_Set "description" (AString (Description x))) d w =
  (Ok (),
   {| schema.sch := schema.sch d; schema.id := Id x;
      schema.strs := <["description" := Description x]>
                       (<["name" := Name x]> (schema.strs d));
      schema.lists := schema.lists d |}, w).
Proof.
  intros Hn Hd. unfold mbind, M_bind, d_SetId, d_Set.
  rewrite Set_string by done. cbv beta iota.
  rewrite Set_string by done. reflexivity.
Qed.

Lemma AssetGroupRead_run m d w :
  schema.sch d = assetGroupSchema →
  dataSourceAssetGroupRead m d w =
  match Client m (lookupRequest m "AssetGroups" (nameFilter (attr d "name"))) w with
  | (Err e, w') => (Err e, d, w')
  | (Ok resp, w') =>
      if negb (StatusCode resp =? StatusOK)
      then (Err (ReadFailed "asset group" (Status resp)), d, w')
      else
        match Body resp with
        | Err e => (Err e, d, w')
        | Ok b =>
            match UnmarshalItems b with
            | Err e => (Err e, d, w')
            | Ok [] => (Err (NotFound "asset group" (attr d "name")), d, w')
            | Ok [x] =>
                (d_SetId (Id x);;
                 d_Set "name" (AString (Name x));;
                 d_Set "description" (AString (Description x))) d w'
            | Ok (_ :: _ :: _) =>
                (Err (AmbiguousMatch "asset group" (attr d "name")), d, w')
            end
        end
  end.
Proof.
  intros Hs.
  pose proof (λ k H, Get_string d k (lookup_attrs _ d k Hs (or_introl eq_refl) H)) as HG.
  unfold dataSourceAssetGroupRead, lookupRequest, nameFilter, bearer.
  run_with HG.
  destruct (Client m _ w) as [[resp|e] w']; [|reflexivity].
  destruct (negb _); [reflexivity|].
  destruct (Body resp) as [b|]; [|reflexivity].
  destruct (UnmarshalItems b) as [[|x [|y rest]]|]; reflexivity.
Qed.

Lemma BusinessUnitRead_run m d w :
  schema.sch d = businessUnitSchema →
  dataSourceBusinessUnitRead m d w =
  match Client m (lookupRequest m "BusinessUnits" (nameFilter (attr d "name"))) w with
  | (Err e, w') => (Err e, d, w')
  | (Ok resp, w') =>
      if negb (StatusCode resp =? StatusOK)
      then (Err (ReadFailed "BusinessUnit" (Status resp)), d, w')
      else
        match Body resp with
        | Err e => (Err e, d, w')
        | Ok b =>
            match UnmarshalItems b with
            | Err e => (Err e, d, w')
            | Ok [] => (Err (NotFound "BusinessUnit" (attr d "name")), d, w')
            | Ok [x] =>
                (d_SetId (Id x);;
                 d_Set "name" (AString (Name x));;
                 d_Set "description" (AString (Description x))) d w'
            | Ok (_ :: _ :: _) =>
                (Err (AmbiguousMatch "BusinessUnit" (attr d "name")), d, w')
            end
        end
  end.
Proof.
  intros Hs.
  pose proof (λ k H, Get_string d k (lookup_attrs _ d k Hs (or_intror eq_refl) H)) as HG.
  unfold dataSourceBusinessUnitRead, lookupRequest, nameFilter, bearer.
  run_with HG.
  destruct (Client m _ w) as [[resp|e] w']; [|reflexivity].
  destruct (negb _); [reflexivity|].
  destruct (Body resp) as [b|]; [|reflexivity].
  destruct (UnmarshalItems b) as [[|x [|y rest]]|]; reflexivity.
Qed.

(** The three cases of a single-item lookup, from its run. *)
Lemma single_lookup_cases (read : Handler) s collection what :
  s = assetGroupSchema ∨ s = businessUnitSchema →
  (∀ m d w, schema.sch d = s →
     read m d w =
     match Client m (lookupRequest m collection (nameFilter (attr d "name"))) w with
     | (Err e, w') => (Err e, d, w')
     | (Ok resp, w') =>
         if negb (StatusCode resp =? StatusOK)
         then (Err (ReadFailed what (Status resp)), d, w')
         else
           match Body resp with
           | Err e => (Err e, d, w')
           | Ok b =>
               match UnmarshalItems b with
               | Err e => (Err e, d, w')
               | Ok [] => (Err (NotFound what (attr d "name")), d, w')
               | Ok [x] =>
                   (d_SetId (Id x);;
                    d_Set "name" (AString (Name x));;
                    d_Set "description" (AString (Description x))) d w'
               | Ok (_ :: _ :: _) =>
                   (Err (AmbiguousMatch what (attr d "name")), d, w')
               end
           end
     end) →
  SingleLookup read s collection what.
Proof.
  intros Hsch Hrun m d w resp w' b items Hs Hdo Hst Hb Hit.
  rewrite (Hrun m d w Hs), Hdo, Hst, Hb, Hit. cbn [Z.eqb Pos.eqb negb StatusOK].
  pose proof (lookup_attrs _ d "name" Hs Hsch ltac:(compute_done)) as Hn.
  pose proof (lookup_attrs _ d "description" Hs Hsch ltac:(compute_done)) as Hd.
  split_and!.
  - by destruct items.
  - destruct items as [|x [|y rest]]; cbn; [lia|lia|done].
  - intros x ->. rewrite found_run by done. eexists. split; [reflexivity|].
    cbn [schema.sch schema.id schema.strs schema.lists]. split_and!; try done.
    + by rewrite lookup_insert_ne, lookup_insert_eq.
    + by rewrite lookup_insert_eq.
    + apply attr_stored; [done|]. cbn.
      by rewrite lookup_insert_ne, lookup_insert_eq.
    + apply attr_stored; [done|]. cbn. by rewrite lookup_insert_eq.
    + intros k Hk1 Hk2. by rewrite !lookup_insert_ne.
Qed.

(** C4.  Both single-item lookups, the asset group and the business unit,
    meet the contract [SingleLookup]: on a reply of status 200, no decoded
    item is the NotFound error, two or more are the AmbiguousMatch error,
    and exactly one sets the local id, name and description to the Id, Name
    and Description of that item. *)
Theorem single_lookup_contract :
  SingleLookup dataSourceAssetGroupRead assetGroupSchema
    "AssetGroups" "asset group" ∧
  SingleLookup dataSourceBusinessUnitRead businessUnitSchema
    "BusinessUnits" "BusinessUnit".
Proof.
  split; apply single_lookup_cases; auto.
  - intros m d w Hs. by apply AssetGroupRead_run.
  - intros m d w Hs. by apply BusinessUnitRead_run.
Qed.

Lemma asObject_group ag :
  schema.asObject assetGroupsElemSchema (group ag) = Some (groupObject ag).
Proof.
  unfold schema.asObject, group. case_decide as H; [reflexivity|].
  destruct H. repeat apply map_Forall_insert_2; try apply map_Forall_empty;
    (split; [by eexists|by eexists]).
Qed.

Lemma mapM_group items :
  mapM (schema.asObject assetGroupsElemSchema) (group <$> items)
  = Some (groupObject <$> items).
Proof.
  apply mapM_Some_2.
  induction items as [|ag items IH]; constructor; [apply asObject_group|done].
Qed.

Lemma Set_asset_groups items d :
  schema.sch d = assetGroupsSchema →
  schema.Set_ "asset_groups" (ASlice (group <$> items)) d =
  Ok {| schema.sch := schema.sch d; schema.id := schema.id d;
        schema.strs := schema.strs d;
        schema.lists := <["asset_groups" := groupObject <$> items]> (schema.lists d) |}.
Proof.
  intros Hs. unfold schema.Set_. rewrite Hs.
  change (assetGroupsSchema !! "asset_groups") with
    (Some (schema.withElem assetGroupsElemSchema
             (schema.computed (schema.field schema.TypeList
                "A list of asset groups.")))).
  cbn [schema.Type_ schema.Elem schema.withElem schema.computed schema.field default].
  rewrite mapM_group. reflexivity.
Qed.

Lemma AssetGroupsRead_run m d w :
  schema.sch d = assetGroupsSchema →
  dataSourceAssetGroupsRead m d w =
  match Client m (lookupRequest m "AssetGroups" (assetGroupsQuery d)) w with
  | (Err e, w') => (Err e, d, w')
  | (Ok resp, w') =>
      if negb (StatusCode resp =? StatusOK)
      then (Err (ReadFailed "asset groups" (Status resp)), d, w')
      else
        match Body resp with
        | Err e => (Err e, d, w')
        | Ok b =>
            match UnmarshalItems b with
            | Err e => (Err e, d, w')
            | Ok items =>
                (Ok (),
                 {| schema.sch := schema.sch d; schema.id := "asset_groups";
                    schema.strs := schema.strs d;
                    schema.lists := <["asset_groups" := groupObject <$> items]>
                                      (schema.lists d) |}, w')
            end
        end
  end.
Proof.
  intros Hs.
  assert (isStringAttr (schema.sch d) "name") as Hname.
  { rewrite Hs. eexists. split; reflexivity. }
  pose proof (λ k (H : k ∈ ["name"]),
                eq_ind_r (λ k, schema.Get d k = AString (attr d k))
                  (Get_string d "name" Hname)
                  (proj1 (list_elem_of_singleton k "name") H)) as HG.
  unfold dataSourceAssetGroupsRead, assetGroupsQuery, lookupRequest,
    nameFilter, bearer, attr, schema.GetOk.
  run_with HG.
  destruct (schema.isZero _); run_with HG.
  all: destruct (Client m _ w) as [[resp|e] w']; [|reflexivity].
  all: destruct (negb _); [reflexivity|].
  all: destruct (Body resp) as [b|]; [|reflexivity].
  all: destruct (UnmarshalItems b) as [items|]; [|reflexivity].
  all: unfold d_Set; rewrite Set_asset_groups by done; reflexivity.
Qed.

(** C7.  The asset-group list read, on the resource data of its schema.
    The request is a GET of the asset-group collection whose query holds a
    [$filter] exactly when a name is configured (and then it is the
    exact-name filter; otherwise the query is empty).  A reply of a status
    other than 200 gives the ReadFailed error with [d] as it was.  On a
    reply of status 200 whose decoded [Items] is [items], nil is returned,
    the id is the constant asset_groups, and the attribute asset_groups
    holds one object per item, in the order of [items], with the id, name
    and description of that item; for no item this is the empty
    collection. *)
Theorem asset_groups_list_contract m d w :
  schema.sch d = assetGroupsSchema →
  let query := assetGroupsQuery d in
  let get := lookupRequest m "AssetGroups" query in
  ((is_Some (query !! "$filter") ↔ isSet d "name") ∧
   (isSet d "name" → query = nameFilter (attr d "name")) ∧
   (¬ isSet d "name" → query = ∅)) ∧
  (Method get = "GET" ∧
   URL get = ApiEndpoint m +:+ "/api/v4/AssetGroups" ∧
   (is_Some (Query get !! "$filter") ↔ isSet d "name") ∧
   (isSet d "name" →
      Query get !! "$filter" = Some ("Name eq '" +:+ attr d "name" +:+ "'")) ∧
   (¬ isSet d "name" → Query get = ∅)) ∧
  (∀ resp w', Client m get w = (Ok resp, w') →
     (StatusCode resp ≠ 200 →
        dataSourceAssetGroupsRead m d w =
          (Err (ReadFailed "asset groups" (Status resp)), d, w')) ∧
     (∀ b items, StatusCode resp = 200 → Body resp = Ok b →
        UnmarshalItems b = Ok items →
        ∃ d' out,
          dataSourceAssetGroupsRead m d w = (Ok (), d', w') ∧
          schema.id d' = "asset_groups" ∧
          schema.lists d' !! "asset_groups" = Some out ∧
          length out = length items ∧
          (∀ i ag, items !! i = Some ag →
             out !! i = Some {[ "id" := Id ag; "name" := Name ag;
                                "description" := Description ag ]}) ∧
          (items = [] → out = []) ∧
          schema.strs d' = schema.strs d ∧
          schema.sch d' = schema.sch d)).
Proof.
  intros Hs query get.
  assert ((is_Some (query !! "$filter") ↔ isSet d "name") ∧
          (isSet d "name" → query = nameFilter (attr d "name")) ∧
          (¬ isSet d "name" → query = ∅)) as Hq.
  { subst query. unfold assetGroupsQuery, isSet.
    destruct (schema.GetOk d "name").2; split_and!; try done.
    split; [|done]. by intros [? ?]. }
  split; [exact Hq|]. split.
  - destruct Hq as (Hiff & Hset & Hunset). split_and!.
    + reflexivity.
    + reflexivity.
    + exact Hiff.
    + intros H. change (Query get) with query. by rewrite (Hset H).
    + intros H. change (Query get) with query. by apply Hunset.
  - intros resp w' Hdo. rewrite (AssetGroupsRead_run _ _ _ Hs).
    fold query. fold get. rewrite Hdo. unfold StatusOK. split.
    + intros H200. by destruct (Z.eqb_spec (StatusCode resp) 200).
    + intros b items -> -> ->. cbn [Z.eqb Pos.eqb negb].
      eexists _, (groupObject <$> items). split; [reflexivity|].
      cbn [schema.sch schema.id schema.strs schema.lists]. split_and!; try done.
      * apply lookup_insert_eq.
      * apply length_fmap.
      * intros i ag Hi. by rewrite list_lookup_fmap, Hi.
      * by intros ->.
Qed.

End DataSources.

(** ** The provider *)

Section Configure.

Context `{env : Env}.

Lemma provider_attrs d k :
  schema.sch d = providerSchema →
  k ∈ ["api_endpoint"; "key_id"; "key_secret"] →
  isStringAttr (schema.sch d) k.
Proof.
  intros -> Hk. unfold isStringAttr.
  repeat (apply elem_of_cons in Hk as [->|Hk];
          [eexists; split; reflexivity|]).
  by apply elem_of_nil in Hk.
Qed.

Lemma providerConfigure_run client d w :
  schema.sch d = providerSchema →
  providerConfigure client d w =
  match client (loginRequest (attr d "api_endpoint") (attr d "key_id")
                  (attr d "key_secret")) w with
  | (Err e, w') => (Err e, d, w')
  | (Ok resp, w') =>
      if negb (StatusCode resp =? StatusOK)
      then (Err (AuthenticationFailed (Status resp)), d, w')
      else
        match Body resp with
        | Err e => (Err e, d, w')
        | Ok b =>
            match UnmarshalAuthResp b with
            | Err e => (Err e, d, w')
            | Ok a =>
                if bool_decide (Token a = "") then (Err MalformedResponse, d, w')
                else (Ok {| ApiEndpoint := attr d "api_endpoint";
                            ApiToken := Token a; Client := client |}, d, w')
            end
        end
  end.
Proof.
  intros Hs.
  pose proof (λ k H, Get_string d k (provider_attrs d k Hs H)) as HG.
  unfold providerConfigure, loginRequest, jsonContent, attr.
  run_with HG.
  destruct (client _ w) as [[resp|e] w']; [|reflexivity].
  destruct (negb _); [reflexivity|].
  destruct (Body resp) as [b|]; [|reflexivity].
  destruct (UnmarshalAuthResp b) as [a|]; [|reflexivity].
  destruct (bool_decide _); reflexivity.
Qed.

(** C5.  A login attempt, on the configuration data of the provider schema.
    A reply of a status other than 200 fails with the authentication error;
    a reply of status 200 that decodes with an empty Token fails with the
    malformed-response error; a reply of status 200 that decodes with a
    non-empty Token returns the client of the configured endpoint with that
    token.  Whenever a client is returned, its endpoint is the configured
    one and its token is the non-empty Token of a 200 reply: no client with
    an empty token is ever returned.  The configuration data is never
    changed. *)
Theorem login_contract client d w :
  schema.sch d = providerSchema →
  let login := loginRequest (attr d "api_endpoint") (attr d "key_id")
                 (attr d "key_secret") in
  (∀ resp w', client login w = (Ok resp, w') →
     (StatusCode resp ≠ 200 →
        providerConfigure client d w =
          (Err (AuthenticationFailed (Status resp)), d, w')) ∧
     (∀ b a, StatusCode resp = 200 → Body resp = Ok b →
        UnmarshalAuthResp b = Ok a →
        (Token a = "" →
           providerConfigure client d w = (Err MalformedResponse, d, w')) ∧
        (Token a ≠ "" →
           providerConfigure client d w =
             (Ok {| ApiEndpoint := attr d "api_endpoint"; ApiToken := Token a;
                    Client := client |}, d, w')))) ∧
  (∀ c d' w', providerConfigure client d w = (Ok c, d', w') →
     ApiEndpoint c = attr d "api_endpoint" ∧ ApiToken c ≠ "" ∧ d' = d ∧
     ∃ resp b a, client login w = (Ok resp, w') ∧ StatusCode resp = 200 ∧
       Body resp = Ok b ∧ UnmarshalAuthResp b = Ok a ∧ ApiToken c = Token a) ∧
  (∀ e d' w', providerConfigure client d w = (Err e, d', w') → d' = d).
Proof.
  intros Hs login. rewrite (providerConfigure_run _ _ _ Hs). fold login.
  unfold StatusOK. split_and!.
  - intros resp w' ->. split.
    + intros H200. by destruct (Z.eqb_spec (StatusCode resp) 200).
    + intros b a -> -> ->. cbn [Z.eqb Pos.eqb negb]. split.
      * intros ->. reflexivity.
      * intros Ht. by rewrite bool_decide_eq_false_2.
  - intros c d' w' H.
    destruct (client login w) as [[resp|] w1]; [|discriminate].
    destruct (Z.eqb_spec (StatusCode resp) 200) as [H200|]; [|discriminate].
    cbn [negb] in H.
    destruct (Body resp) as [b|] eqn:Hb; [|discriminate].
    destruct (UnmarshalAuthResp b) as [a|] eqn:Ha; [|discriminate].
    case_bool_decide as Ht; [discriminate|].
    injection H as <- <- <-. cbn. split_and!; try done.
    by exists resp, b, a.
  - intros e d' w' H.
    destruct (client login w) as [[resp|] w1]; [|congruence].
    destruct (negb _); [congruence|].
    destruct (Body resp) as [b|]; [|congruence].
    destruct (UnmarshalAuthResp b) as [a|]; [|congruence].
    destruct (bool_decide _); congruence.
Qed.

End Configure.

(** ** The schema of the Application resource and the provider *)

Section Schemas.

Context `{env : Env}.

(** Without case folding, [StringInSlice] accepts exactly the strings of
    the slice. *)
Lemma StringInSlice_exact valid x k :
  (StringInSlice valid false x k).2 = [] ↔ ∃ v, x = AString v ∧ v ∈ valid.
Proof.
  unfold StringInSlice. destruct x as [| | |v| |]; cbn;
    try (split; [discriminate|by intros (? & ? & _)]).
  destruct (existsb _ valid) eqn:E; cbn.
  - split; [intros _|done]. exists v. split; [done|].
    apply existsb_exists in E as (str & Hin & Hstr).
    cbn in Hstr. rewrite orb_false_r, bool_decide_eq_true in Hstr.
    subst. by apply list_elem_of_In.
  - split; [discriminate|]. intros (v' & [= <-] & Hin).
    apply not_true_iff_false in E. destruct E.
    apply existsb_exists. exists v. split; [by apply list_elem_of_In|].
    by rewrite bool_decide_eq_true_2.
Qed.

(** C6.  The attribute business_impact of the Application resource is
    optional with the default Unspecified, so that it reads as Unspecified
    when nothing is stored for it; and its validation function returns no
    error exactly on the strings Unspecified, Low, Medium, High and
    Critical: every other value is rejected. *)
Theorem business_impact_schema :
  ∃ s validate,
    schema.Schema_ resourceAppScanApplication !! "business_impact" = Some s ∧
    schema.Optional s = true ∧
    schema.Default s = Some (AString "Unspecified") ∧
    (∀ d, schema.sch d = schema.Schema_ resourceAppScanApplication →
          schema.strs d !! "business_impact" = None →
          schema.Get d "business_impact" = AString "Unspecified") ∧
    schema.ValidateFunc s = Some validate ∧
    (∀ v k, v ∉ ["Unspecified"; "Low"; "Medium"; "High"; "Critical"] →
            (validate (AString v) k).2 ≠ []) ∧
    (∀ x k, (validate x k).2 = [] ↔
            ∃ v, x = AString v ∧
                 v ∈ ["Unspecified"; "Low"; "Medium"; "High"; "Critical"]).
Proof.
  eexists _, (StringInSlice businessImpacts false).
  split; [reflexivity|]. split_and!; try reflexivity.
  - intros d Hs Hno. unfold schema.Get. rewrite Hs, Hno. reflexivity.
  - intros v k Hv H. apply StringInSlice_exact in H as (v' & [= <-] & Hin).
    by apply Hv.
  - intros x k. apply StringInSlice_exact.
Qed.

(** C9, evaluated on the code.  The data sources that [Provider] registers
    are appscan_asset_groups and appscan_asset_group, and nothing else:
    none of the registered data sources is [dataSourceBusinessUnit], under
    any name, although the package defines it. *)
Theorem Provider_data_sources client :
  dom (schema.DataSourcesMap (Provider client))
    = {[ "appscan_asset_groups"; "appscan_asset_group" ]} ∧
  schema.DataSourcesMap (Provider client) !! "appscan_business_unit" = None ∧
  (∀ k r, schema.DataSourcesMap (Provider client) !! k = Some r →
          r ≠ dataSourceBusinessUnit) ∧
  dom (schema.ResourcesMap (Provider client)) = {[ "appscan_application" ]}.
Proof.
  split_and!.
  - cbn. rewrite dom_insert_L, dom_singleton_L. reflexivity.
  - reflexivity.
  - intros k r H Heq. subst r. cbn in H.
    apply lookup_insert_Some in H as [[_ H]|[_ H]].
    + apply (f_equal (λ r, schema.Schema_ r !! "asset_groups")) in H.
      discriminate H.
    + apply lookup_singleton_Some in H as [_ H].
      apply (f_equal (λ r, schema.Description <$> (schema.Schema_ r !! "name"))) in H.
      discriminate H.
  - cbn. by rewrite dom_singleton_L.
Qed.

End Schemas.

(** ** The handlers on the test environment *)

Section Scenarios.

Import Mock.

(** The scenario of the specification: creating App1 in AG1, the server
    assigning the id 123, then reading it back. *)
Example create_then_read :
  let '(r, d, w) := resourceAppScanApplicationCreate (appscan healthy) newApp [] in
  r = Ok () ∧ schema.id d = "123" ∧
  map_to_list (schema.strs d) =
    [("asset_group_id", "AG1"); ("name", "App1");
     ("business_impact", "Unspecified")] ∧
  Method <$> w = ["GET"; "POST"].
Proof. vm_compute. done. Qed.

Example delete_clears_id :
  let '(r, d, w) := resourceAppScanApplicationDelete (appscan healthy) app123 [] in
  r = Ok () ∧ schema.id d = "" ∧ schema.strs d = schema.strs app123.
Proof. vm_compute. done. Qed.

(** The Read of main.go leaves asset_group_id alone even when the item
    carries one. *)
Example main_Read_keeps_asset_group_id :
  let app := <["AssetGroupId" := AString "AG2"]> app1 in
  let m := appscan (byMethod created (found [app]) updated deleted) in
  let d := data main.applicationSchema "123" [("name", "Old"); ("asset_group_id", "AG1")] in
  (main.resourceAppScanApplicationRead m d []).1.2 =
    data main.applicationSchema "123" [("name", "App1"); ("asset_group_id", "AG1")] ∧
  schema.strs (resourceAppScanApplicationRead m app123 []).1.2 !! "asset_group_id"
    = Some "AG2".
Proof. vm_compute. done. Qed.

(** C8, refuted as it is stated: the POST is answered with the id 123, the
    Read that follows fails with status 500, Create returns that error, and
    the local id, empty before the call, is 123 after it. *)
Lemma Create_error_keeps_new_id :
  ∃ d' w',
    resourceAppScanApplicationCreate (appscan failingReads) newApp [] =
      (Err (ReadFailed "application" "500 Internal Server Error"), d', w') ∧
    schema.id newApp = "" ∧ schema.id d' = "123" ∧ d' ≠ newApp.
Proof.
  eexists _, _. split; [vm_compute; reflexivity|].
  split; [reflexivity|]. split; [reflexivity|].
  intros H. apply (f_equal schema.id) in H. discriminate H.
Qed.

(** C1, refuted as it is stated, on the Read of main.go: the server
    answers the read request with status 200 and one item whose
    AssetGroupId is the string AG1; Read returns nil, and asset_group_id,
    AG9 before the call, is still AG9 after it. *)
Lemma main_Read_ignores_AssetGroupId :
  ∃ d' w',
    healthy (appReadRequest (appscan healthy) "123") = found [app1] ∧
    indexString app1 "AssetGroupId" = Some "AG1" ∧
    main.resourceAppScanApplicationRead (appscan healthy) mainApp [] =
      (Ok (), d', w') ∧
    schema.strs mainApp !! "asset_group_id" = Some "AG9" ∧
    schema.strs d' !! "asset_group_id" = Some "AG9" ∧
    schema.strs d' !! "asset_group_id" ≠ Some "AG1".
Proof.
  eexists _, _. split; [reflexivity|]. split; [reflexivity|].
  split; [vm_compute; reflexivity|]. split; [reflexivity|].
  split; [reflexivity|]. discriminate.
Qed.

Lemma Read_contract_witness :
  (∃ d', resourceAppScanApplicationRead (appscan healthy) app123 [] =
           (Ok (), d', [appReadRequest (appscan healthy) "123"]) ∧
         schema.id d' = "123" ∧
         schema.strs d' !! "name" = Some "App1" ∧
         schema.strs d' !! "business_impact" = Some "Unspecified" ∧
         schema.strs d' !! "business_unit_id" = Some "BU7") ∧
  (∃ d', resourceAppScanApplicationRead (appscan forgetful) app123 [] =
           (Ok (), d', [appReadRequest (appscan forgetful) "123"]) ∧
         schema.id app123 = "123" ∧ schema.id d' = "" ∧
         schema.strs d' = schema.strs app123) ∧
  (∃ d', main.resourceAppScanApplicationRead (appscan healthy) mainApp [] =
           (Ok (), d', [appReadRequest (appscan healthy) "123"]) ∧
         schema.strs d' !! "name" = Some "App1" ∧
         schema.strs d' !! "asset_group_id" = Some "AG9").
Proof.
  destruct Read_contract as [Hp Hm]. split_and!.
  - edestruct (Hp (appscan healthy) app123 []) as (_ & _ & _ & H);
      [reflexivity|].
    edestruct H as (d' & Hrun & _ & Hid & _ & Hstr); [reflexivity..|].
    exists d'. rewrite !Hstr, Hid. split; [exact Hrun|]. vm_compute. done.
  - edestruct (Hp (appscan forgetful) app123 []) as (H & _); [reflexivity|].
    edestruct H as (d' & Hrun & Hid & Hstr & _); [reflexivity|].
    exists d'. split; [exact Hrun|]. split; [reflexivity|].
    split; [exact Hid|exact Hstr].
  - edestruct (Hm (appscan healthy) mainApp []) as (_ & _ & _ & H);
      [reflexivity|].
    edestruct H as (d' & Hrun & _ & _ & _ & Hstr); [reflexivity..|].
    exists d'. rewrite !Hstr. split; [exact Hrun|]. vm_compute. done.
Defined.

Lemma Read_takes_first_item_witness :
  indexString stranger "Id" = Some "999" ∧
  ∃ d', resourceAppScanApplicationRead (appscan twoApps) app123 [] =
          (Ok (), d', [appReadRequest (appscan twoApps) "123"]) ∧
        schema.id d' = "123" ∧
        schema.strs d' !! "name" = Some "Elsewhere" ∧
        schema.strs d' !! "business_impact" = Some "High".
Proof.
  split; [reflexivity|].
  edestruct (Read_takes_first_item (appscan twoApps) app123 [])
    as (_ & _ & _ & _ & H & _); [reflexivity..|].
  destruct (H eq_refl) as (d' & Hrun & _ & Hid & _ & Hstr).
  exists d'. rewrite !Hstr, Hid. split; [exact Hrun|]. vm_compute. done.
Defined.


Lemma Update_contract_witness :
  schema.sch app123 = applicationSchema ∧
  updatePayload app123 !! "AssetGroupId" = None ∧
  updatePayload app123 !! "BusinessUnitId" = Some (AString "BU7") ∧
  resourceAppScanApplicationUpdate (appscan healthy) app123 [] =
    resourceAppScanApplicationRead (appscan healthy) app123
      [appUpdateRequest (appscan healthy) "123" (updatePayload app123)] ∧
  resourceAppScanApplicationUpdate (appscan readOnly) app123 [] =
    (Err (UpdateFailed "500 Internal Server Error"), app123,
     [appUpdateRequest (appscan readOnly) "123" (updatePayload app123)]).
Proof.
  split; [reflexivity|].
  destruct (Update_contract (appscan healthy) app123 [] eq_refl)
    as ((_ & _ & _ & _ & _ & Hbu & _ & Hnoag & _) & H & _).
  split; [exact Hnoag|].
  split; [rewrite Hbu; [reflexivity|vm_compute; reflexivity]|].
  split.
  - edestruct H as [_ H200]; [reflexivity|]. apply H200. reflexivity.
  - destruct (Update_contract (appscan readOnly) app123 [] eq_refl) as (_ & H' & _).
    edestruct H' as [H500 _]; [reflexivity|]. apply H500. discriminate.
Defined.

Lemma single_lookup_contract_witness :
  (∃ d', dataSourceAssetGroupRead (appscan oneGroup) prodGroup [] =
           (Ok (), d', [lookupRequest (appscan oneGroup) "AssetGroups"
                          (nameFilter "Prod")]) ∧
         schema.id d' = "g1" ∧ attr d' "name" = "Prod" ∧
         attr d' "description" = "Production") ∧
  dataSourceBusinessUnitRead (appscan threeGroups) prodUnit [] =
    (Err (AmbiguousMatch "BusinessUnit" "Prod"), prodUnit,
     [lookupRequest (appscan threeGroups) "BusinessUnits" (nameFilter "Prod")]).
Proof.
  destruct single_lookup_contract as [Hag Hbu]. split.
  - edestruct (Hag (appscan oneGroup) prodGroup []) as (_ & _ & H);
      [reflexivity..|].
    edestruct H as (d' & Hrun & Hid & _ & _ & Hn & Hd & _); [reflexivity|].
    exists d'. split; [exact Hrun|]. split; [exact Hid|]. split; [exact Hn|exact Hd].
  - edestruct (Hbu (appscan threeGroups) prodUnit []) as (_ & H & _);
      [reflexivity..|].
    apply H. simpl. lia.
Defined.

Lemma login_contract_witness :
  schema.sch config = providerSchema ∧
  providerConfigure (client login) config [] =
    (Ok {| ApiEndpoint := "https://cloud.appscan.com"; ApiToken := "t0k3n";
           Client := client login |}, config,
     [loginRequest "https://cloud.appscan.com" "k" "s"]).
Proof.
  split; [reflexivity|].
  destruct (login_contract (client login) config [] eq_refl) as (H & _).
  edestruct H as [_ H200]; [reflexivity|].
  edestruct H200 as [_ Htoken]; [reflexivity..|].
  apply Htoken. discriminate.
Defined.

Lemma asset_groups_list_contract_witness :
  schema.sch allGroups = assetGroupsSchema ∧
  Query (lookupRequest (appscan threeGroups) "AssetGroups"
           (assetGroupsQuery allGroups)) !! "$filter" = None ∧
  Query (lookupRequest (appscan threeGroups) "AssetGroups"
           (assetGroupsQuery prodGroups)) !! "$filter" = Some "Name eq 'Prod'" ∧
  ∃ d' out,
    dataSourceAssetGroupsRead (appscan threeGroups) allGroups [] =
      (Ok (), d', [lookupRequest (appscan threeGroups) "AssetGroups" ∅]) ∧
    schema.id d' = "asset_groups" ∧
    schema.lists d' !! "asset_groups" = Some out ∧
    length out = 3%nat ∧
    out !! 1%nat = Some {[ "id" := "g2"; "name" := "Test"; "description" := "Testing" ]}.
Proof.
  split; [reflexivity|].
  destruct (asset_groups_list_contract (appscan threeGroups) allGroups [] eq_refl)
    as (_ & (_ & _ & _ & _ & Hnone) & H).
  destruct (asset_groups_list_contract (appscan threeGroups) prodGroups [] eq_refl)
    as (_ & (_ & _ & _ & Hsome & _) & _).
  split; [rewrite Hnone; [reflexivity|vm_compute; discriminate]|].
  split; [rewrite Hsome; [reflexivity|vm_compute; reflexivity]|].
  edestruct H as [_ H200]; [reflexivity|].
  edestruct H200 as (d' & out & Hrun & Hid & Hout & Hlen & Hith & _);
    [reflexivity..|].
  exists d', out. split; [exact Hrun|]. split; [exact Hid|]. split; [exact Hout|].
  split; [exact Hlen|].
  exact (Hith 1%nat {| Id := "g2"; Name := "Test"; Description := "Testing" |} eq_refl).
Defined.

Lemma errors_keep_state_witness :
  schema.sch app123 = applicationSchema ∧
  (resourceAppScanApplicationRead (appscan failingReads) app123 []).1.2 = app123 ∧
  (resourceAppScanApplicationUpdate (appscan readOnly) app123 []).1.2 = app123 ∧
  (resourceAppScanApplicationDelete (appscan readOnly) app123 []).1.2 = app123.
Proof.
  split; [reflexivity|].
  pose proof (errors_keep_state (appscan failingReads) app123 []
                (ReadFailed "application" "500 Internal Server Error")
                (resourceAppScanApplicationRead (appscan failingReads) app123 []).1.2
                [appReadRequest (appscan failingReads) "123"] eq_refl)
    as (Hread & _).
  pose proof (errors_keep_state (appscan readOnly) app123 []
                (UpdateFailed "500 Internal Server Error")
                (resourceAppScanApplicationUpdate (appscan readOnly) app123 []).1.2
                [appUpdateRequest (appscan readOnly) "123" (updatePayload app123)]
                eq_refl)
    as (_ & Hupdate & _).
  pose proof (errors_keep_state (appscan readOnly) app123 []
                (DeleteFailed "500 Internal Server Error")
                (resourceAppScanApplicationDelete (appscan readOnly) app123 []).1.2
                [appDeleteRequest (appscan readOnly) "123"] eq_refl)
    as (_ & _ & Hdelete & _).
  split; [|split].
  - apply Hread. vm_compute. reflexivity.
  - apply Hupdate. vm_compute. reflexivity.
  - apply Hdelete. vm_compute. reflexivity.
Defined.

End Scenarios.

(** * Further properties *)

(** ** Further properties of the Application resource *)

Section ApplicationMore.

Context `{env : Env}.

Lemma ResourceData_eq (d1 d2 : schema.ResourceData) :
  schema.sch d1 = schema.sch d2 → schema.id d1 = schema.id d2 →
  schema.strs d1 = schema.strs d2 → schema.lists d1 = schema.lists d2 →
  d1 = d2.
Proof. destruct d1, d2. cbn. by intros -> -> -> ->. Qed.

Lemma refreshed_attrs d a f :
  schema.sch d = applicationSchema → (a, f) ∈ refreshed →
  isStringAttr (schema.sch d) a.
Proof.
  intros Hs Hin. apply application_attrs; [done|]. unfold refreshed in Hin.
  repeat (apply elem_of_cons in Hin as [[= -> ->]|Hin]; [compute_done|]).
  by apply elem_of_nil in Hin.
Qed.

(** X1.  Application Delete, whatever the resource data.  The request is a
    DELETE of the application of the local id, without a payload.  An error
    of the transport is returned as it is.  A reply of status 200 or 204
    returns nil and the local id is empty afterwards, every attribute
    staying as it was; the body of the reply is never read.  A reply of any
    other status gives the DeleteFailed error with [d] as it was.  Delete
    returns nil only after a reply of status 200 or 204, and then the local
    id is empty. *)
Theorem Delete_contract m d w :
  let del := appDeleteRequest m (schema.Id d) in
  (Method del = "DELETE" ∧
   URL del = ApiEndpoint m +:+ "/api/v4/Apps/" +:+ schema.id d ∧
   Payload del = None) ∧
  (∀ e w', Client m del w = (Err e, w') →
     resourceAppScanApplicationDelete m d w = (Err e, d, w')) ∧
  (∀ resp w', Client m del w = (Ok resp, w') →
     (StatusCode resp = 200 ∨ StatusCode resp = 204 →
        ∃ d', resourceAppScanApplicationDelete m d w = (Ok (), d', w') ∧
              schema.id d' = "" ∧ schema.strs d' = schema.strs d ∧
              schema.lists d' = schema.lists d ∧
              schema.sch d' = schema.sch d) ∧
     (StatusCode resp ≠ 200 → StatusCode resp ≠ 204 →
        resourceAppScanApplicationDelete m d w =
          (Err (DeleteFailed (Status resp)), d, w'))) ∧
  (∀ d' w', resourceAppScanApplicationDelete m d w = (Ok (), d', w') →
     (schema.id d' = "" ∧ schema.strs d' = schema.strs d ∧
      schema.lists d' = schema.lists d ∧ schema.sch d' = schema.sch d) ∧
     ∃ resp, Client m del w = (Ok resp, w') ∧
             (StatusCode resp = 200 ∨ StatusCode resp = 204)).
Proof.
  intros del. split; [done|]. rewrite Delete_run. fold del.
  unfold StatusNoContent, StatusOK. split_and!.
  - by intros e w' ->.
  - intros resp w' ->. split.
    + intros Hst. exists (schema.SetId "" d). by destruct Hst as [-> | ->].
    + intros H200 H204.
      destruct (Z.eqb_spec (StatusCode resp) 204); [done|].
      by destruct (Z.eqb_spec (StatusCode resp) 200).
  - intros d' w' H.
    destruct (Client m _ w) as [[resp|] w1]; [|discriminate].
    destruct (Z.eqb_spec (StatusCode resp) 204) as [H204|].
    + injection H as <- <-. split; [done|]. exists resp. auto.
    + destruct (Z.eqb_spec (StatusCode resp) 200) as [H200|]; [|discriminate].
      injection H as <- <-. split; [done|]. exists resp. auto.
Qed.

Lemma refresh_idem app d :
  schema.sch d = applicationSchema →
  refresh refreshed app (refresh refreshed app d) = refresh refreshed app d.
Proof.
  intros Hs.
  destruct (refresh_frame refreshed app d) as [Hsch Hid].
  assert (NoDup refreshed.*1) as Hnd by compute_done.
  destruct (refresh_strings refreshed app d Hnd) as [Hl Hstr].
  { intros a f. by apply refreshed_attrs. }
  destruct (refresh_frame refreshed app (refresh refreshed app d)) as [Hsch' Hid'].
  destruct (refresh_strings refreshed app (refresh refreshed app d) Hnd)
    as [Hl' Hstr'].
  { intros a f. apply refreshed_attrs. congruence. }
  apply ResourceData_eq; [done..| |done].
  apply map_eq. intros k. rewrite Hstr', Hstr.
  destruct (fieldOf refreshed k) as [f|]; [|done].
  by destruct (indexString app f).
Qed.

(** X2.  Read is idempotent on an application that is there: when the
    server answers the read request twice with the same reply of status 200
    that holds an item, the second Read sends the same request and leaves
    the state that the first Read left. *)
Theorem Read_idempotent m d w resp w1 w2 b app rest :
  schema.sch d = applicationSchema →
  Client m (appReadRequest m (schema.Id d)) w = (Ok resp, w1) →
  Client m (appReadRequest m (schema.Id d)) w1 = (Ok resp, w2) →
  StatusCode resp = 200 → Body resp = Ok b →
  UnmarshalAppItems b = Ok (app :: rest) →
  ∃ d1, resourceAppScanApplicationRead m d w = (Ok (), d1, w1) ∧
        resourceAppScanApplicationRead m d1 w1 = (Ok (), d1, w2).
Proof.
  intros Hs Hdo1 Hdo2 Hst Hb Hit. exists (refresh refreshed app d).
  destruct (refresh_frame refreshed app d) as [_ Hid].
  rewrite !Read_run. unfold schema.Id. rewrite Hid.
  unfold schema.Id in Hdo1, Hdo2. rewrite Hdo1, Hdo2, Hst, Hb, Hit.
  cbn -[refresh]. by rewrite refresh_idem.
Qed.

(** When Read returns nil, the server answered the read request, and either
    it no longer knows the application (status 404, or status 200 and no
    item) and [d] has lost its id, or it answered with status 200 and a
    first item from which [d] was refreshed. *)
Lemma Read_ok m d w d' w' :
  resourceAppScanApplicationRead m d w = (Ok (), d', w') →
  ∃ resp,
    Client m (appReadRequest m (schema.Id d)) w = (Ok resp, w') ∧
    ((StatusCode resp = 404 ∨
      (StatusCode resp = 200 ∧
       ∃ b, Body resp = Ok b ∧ UnmarshalAppItems b = Ok [])) ∧
     d' = schema.SetId "" d
     ∨
     (StatusCode resp = 200 ∧
      ∃ b app rest, Body resp = Ok b ∧ UnmarshalAppItems b = Ok (app :: rest) ∧
        d' = refresh refreshed app d)).
Proof.
  rewrite Read_run. unfold StatusNotFound, StatusOK.
  destruct (Client m _ w) as [[resp|] w1]; [|discriminate].
  destruct (Z.eqb_spec (StatusCode resp) 404) as [H404|H404].
  { intros [= <- <-]. exists resp. split; [done|]. left. auto. }
  destruct (Z.eqb_spec (StatusCode resp) 200) as [H200|H200]; [|discriminate].
  cbn [negb].
  destruct (Body resp) as [b|] eqn:Hb; [|discriminate].
  destruct (UnmarshalAppItems b) as [[|app rest]|] eqn:Hit; [| |discriminate].
  - intros [= <- <-]. exists resp. split; [done|]. left. split; [|done].
    right. split; [done|]. by exists b.
  - set (d1 := refresh refreshed app d). intros [= <- <-].
    exists resp. split; [done|]. right. split; [done|]. by exists b, app, rest.
Qed.

(** X3.  The id after a successful write, on the Application schema.  When
    Create returns nil, the POST was answered with a non-empty string Id and
    the read request for that Id was answered.  If that answer held a first
    item (status 200), the local id is that Id.  If the answer was status
    404, or status 200 without an item, Create returns nil all the same, the
    local id is empty, and nothing else of [d] has changed.  When Update
    returns nil, the PUT was answered with status 200 and the read request
    for the local id was answered: with a first item, the id is as before;
    with status 404 or without an item, the id is empty and nothing else
    has changed. *)
Theorem success_leaves_id m d w d' w' :
  schema.sch d = applicationSchema →
  (resourceAppScanApplicationCreate m d w = (Ok (), d', w') →
   ∃ resp w1 b result id resp',
     Client m (appCreateRequest m (createPayload d)) w = (Ok resp, w1) ∧
     Body resp = Ok b ∧ UnmarshalObject b = Ok result ∧
     indexString result "Id" = Some id ∧ id ≠ "" ∧
     Client m (appReadRequest m id) w1 = (Ok resp', w') ∧
     ((StatusCode resp' = 404 ∨
       (StatusCode resp' = 200 ∧
        ∃ b', Body resp' = Ok b' ∧ UnmarshalAppItems b' = Ok [])) ∧
      schema.id d' = "" ∧ schema.strs d' = schema.strs d ∧
      schema.lists d' = schema.lists d ∧ schema.sch d' = schema.sch d
      ∨
      (StatusCode resp' = 200 ∧
       ∃ b' app rest, Body resp' = Ok b' ∧
         UnmarshalAppItems b' = Ok (app :: rest)) ∧
      schema.id d' = id)) ∧
  (resourceAppScanApplicationUpdate m d w = (Ok (), d', w') →
   ∃ resp w1 resp',
     Client m (appUpdateRequest m (schema.Id d) (updatePayload d)) w
       = (Ok resp, w1) ∧
     StatusCode resp = 200 ∧
     Client m (appReadRequest m (schema.Id d)) w1 = (Ok resp', w') ∧
     ((StatusCode resp' = 404 ∨
       (StatusCode resp' = 200 ∧
        ∃ b', Body resp' = Ok b' ∧ UnmarshalAppItems b' = Ok [])) ∧
      schema.id d' = "" ∧ schema.strs d' = schema.strs d ∧
      schema.lists d' = schema.lists d ∧ schema.sch d' = schema.sch d
      ∨
      (StatusCode resp' = 200 ∧
       ∃ b' app rest, Body resp' = Ok b' ∧
         UnmarshalAppItems b' = Ok (app :: rest)) ∧
      schema.id d' = schema.id d)).
Proof.
  intros Hs. split.
  - rewrite (Create_run _ _ _ Hs).
    destruct (Client m _ w) as [[resp|] w1]; [|discriminate].
    destruct (_ && _); [discriminate|].
    destruct (Body resp) as [b|] eqn:Hb; [|discriminate].
    destruct (UnmarshalObject b) as [result|] eqn:Hres; [|discriminate].
    destruct (indexString result "Id") as [id|] eqn:Hidx; [|discriminate].
    case_bool_decide as Hid; [discriminate|].
    intros (resp' & Hdo' & Hcase)%Read_ok.
    exists resp, w1, b, result, id, resp'. split_and!; try done.
    destruct Hcase as [[Hgone ->] | (H200 & b' & app & rest & Hb' & Hit & ->)].
    + left. by split.
    + right. split; [split; [done|by exists b', app, rest]|].
      exact (proj2 (refresh_frame refreshed app (schema.SetId id d))).
  - rewrite (Update_run _ _ _ Hs). unfold StatusOK.
    destruct (Client m _ w) as [[resp|] w1]; [|discriminate].
    destruct (Z.eqb_spec (StatusCode resp) 200) as [H200|]; [|discriminate].
    cbn [negb].
    intros (resp' & Hdo' & Hcase)%Read_ok.
    exists resp, w1, resp'. split_and!; try done.
    destruct Hcase as [[Hgone ->] | (H200' & b' & app & rest & Hb' & Hit & ->)].
    + left. by split.
    + right. split; [split; [done|by exists b', app, rest]|].
      exact (proj2 (refresh_frame refreshed app d)).
Qed.

(** [d.Set] of a string touches no list and no other string attribute,
    whatever the schema. *)
Lemma Set_string_frame a v d d' :
  schema.Set_ a (AString v) d = Ok d' →
  schema.lists d' = schema.lists d ∧
  ∀ k, k ≠ a → schema.strs d' !! k = schema.strs d !! k.
Proof.
  unfold schema.Set_. intros H.
  destruct (schema.sch d !! a) as [s|]; [|discriminate].
  destruct (schema.Type_ s); [|discriminate].
  injection H as <-. cbn. split; [done|]. intros k Hk.
  by apply lookup_insert_ne.
Qed.

Lemma refresh_frame_any fields app d :
  schema.lists (refresh fields app d) = schema.lists d ∧
  ∀ k, k ∉ fields.*1 →
       schema.strs (refresh fields app d) !! k = schema.strs d !! k.
Proof.
  unfold refresh. revert d.
  induction fields as [|[a f] fields IH]; intros d; [done|]. cbn [foldl].
  destruct (IH (refresh1 app f a d)) as [Hl Hs].
  assert (schema.lists (refresh1 app f a d) = schema.lists d ∧
          ∀ k, k ≠ a → schema.strs (refresh1 app f a d) !! k = schema.strs d !! k)
    as [Hl1 Hs1].
  { unfold refresh1. destruct (indexString app f) as [v|]; [|done].
    destruct (schema.Set_ a (AString v) d) as [d1|] eqn:E; [|done].
    by apply Set_string_frame in E. }
  split; [congruence|]. intros k Hk. cbn in Hk.
  apply not_elem_of_cons in Hk as [Hka Hk]. rewrite Hs by done. by apply Hs1.
Qed.

(** X4.  What Read can touch, whatever the schema of [d] and whatever Read
    returns: it keeps the schema and the list attributes, it keeps the id
    or empties it, and it leaves every string attribute other than name,
    description, asset_group_id, business_unit_id and business_impact as it
    was.  After a reply of status 200 with an item, Read returns nil and
    keeps the id, also where [d.Set] refuses an attribute: an error of
    [d.Set] never reaches the caller. *)
Theorem Read_frame m d w r d' w' :
  resourceAppScanApplicationRead m d w = (r, d', w') →
  schema.sch d' = schema.sch d ∧
  schema.lists d' = schema.lists d ∧
  (schema.id d' = schema.id d ∨ schema.id d' = "") ∧
  (∀ k, k ∉ ["name"; "description"; "asset_group_id"; "business_unit_id";
             "business_impact"] →
        schema.strs d' !! k = schema.strs d !! k) ∧
  (∀ resp w1 b app rest,
     Client m (appReadRequest m (schema.Id d)) w = (Ok resp, w1) →
     StatusCode resp = 200 → Body resp = Ok b →
     UnmarshalAppItems b = Ok (app :: rest) →
     r = Ok () ∧ schema.id d' = schema.id d).
Proof.
  rewrite Read_run. intros H.
  destruct (Client m _ w) as [[resp|] w1];
    [|injection H as <- <- <-; split_and!; auto; intros; discriminate].
  destruct (_ =? StatusNotFound) eqn:E404.
  { injection H as <- <- <-. split_and!; auto.
    intros resp' w2 b app rest [= <- <-] Hst. rewrite Hst in E404. discriminate. }
  destruct (negb _) eqn:E200.
  { injection H as <- <- <-. split_and!; auto.
    intros resp' w2 b app rest [= <- <-] Hst. rewrite Hst in E200. discriminate. }
  destruct (Body resp) as [b|] eqn:Hb;
    [|injection H as <- <- <-; split_and!; auto; intros ? ? ? ? ? [= <- <-]; congruence].
  destruct (UnmarshalAppItems b) as [[|app rest]|] eqn:Hit.
  - injection H as <- <- <-. split_and!; auto.
    intros ? ? ? ? ? [= <- <-]. congruence.
  - destruct (refresh_frame refreshed app d) as [Hsch Hid].
    destruct (refresh_frame_any refreshed app d) as [Hl Hs].
    set (d1 := refresh refreshed app d) in *. injection H as <- <- <-.
    split_and!; auto.
  - injection H as <- <- <-. split_and!; auto.
    intros ? ? ? ? ? [= <- <-]. congruence.
Qed.

(** X5.  Errors of the library calls are returned as they are, with [d]
    untouched: in Read, the error of the client, of reading the body and of
    decoding it; on the Application schema, the same three in Create, and
    the error of the client in Update. *)
Theorem library_errors_pass_through m d w :
  (∀ e w', Client m (appReadRequest m (schema.Id d)) w = (Err e, w') →
     resourceAppScanApplicationRead m d w = (Err e, d, w')) ∧
  (∀ resp w', Client m (appReadRequest m (schema.Id d)) w = (Ok resp, w') →
     StatusCode resp = 200 →
     (∀ e, Body resp = Err e →
        resourceAppScanApplicationRead m d w = (Err e, d, w')) ∧
     (∀ b e, Body resp = Ok b → UnmarshalAppItems b = Err e →
        resourceAppScanApplicationRead m d w = (Err e, d, w'))) ∧
  (schema.sch d = applicationSchema →
   (∀ e w', Client m (appCreateRequest m (createPayload d)) w = (Err e, w') →
      resourceAppScanApplicationCreate m d w = (Err e, d, w')) ∧
   (∀ resp w', Client m (appCreateRequest m (createPayload d)) w = (Ok resp, w') →
      StatusCode resp = 200 ∨ StatusCode resp = 201 →
      (∀ e, Body resp = Err e →
         resourceAppScanApplicationCreate m d w = (Err e, d, w')) ∧
      (∀ b e, Body resp = Ok b → UnmarshalObject b = Err e →
         resourceAppScanApplicationCreate m d w = (Err e, d, w'))) ∧
   (∀ e w', Client m (appUpdateRequest m (schema.Id d) (updatePayload d)) w
              = (Err e, w') →
      resourceAppScanApplicationUpdate m d w = (Err e, d, w'))).
Proof.
  split_and!.
  - intros e w' H. by rewrite Read_run, H.
  - intros resp w' H Hst. rewrite Read_run, H, Hst. cbn. split.
    + by intros e ->.
    + by intros b e -> ->.
  - intros Hs. rewrite (Create_run _ _ _ Hs), (Update_run _ _ _ Hs). split_and!.
    + by intros e w' ->.
    + intros resp w' -> Hst.
      assert (negb (StatusCode resp =? StatusCreated) &&
              negb (StatusCode resp =? StatusOK) = false) as ->.
      { by destruct Hst as [-> | ->]. }
      split; [by intros e ->|by intros b e -> ->].
    + by intros e w' ->.
Qed.

Lemma Read_echo m d w r d' w' :
  schema.sch d = applicationSchema →
  resourceAppScanApplicationRead m d w = (r, d', w') →
  (∀ resp w1 b app rest,
     Client m (appReadRequest m (schema.Id d)) w = (Ok resp, w1) →
     StatusCode resp = 200 → Body resp = Ok b →
     UnmarshalAppItems b = Ok (app :: rest) →
     ∀ a f v, (a, f) ∈ refreshed → indexString app f = Some v → v = attr d a) →
  ∀ k, attr d' k = attr d k.
Proof.
  intros Hs Hrun Hecho k. rewrite Read_run in Hrun.
  destruct (Client m _ w) as [[resp|] w1] eqn:Hdo; [|congruence].
  destruct (_ =? StatusNotFound); [by injection Hrun as _ <- _|].
  destruct (Z.eqb_spec (StatusCode resp) StatusOK) as [Hst|];
    [|by injection Hrun as _ <- _].
  cbn [negb] in Hrun.
  destruct (Body resp) as [b|] eqn:Hb; [|congruence].
  destruct (UnmarshalAppItems b) as [[|app rest]|] eqn:Hit;
    [by injection Hrun as _ <- _| |congruence].
  destruct (refresh_frame refreshed app d) as [Hsch _].
  destruct (refresh_strings refreshed app d) as [_ Hstr];
    [compute_done|intros a f; by apply refreshed_attrs|].
  set (d1 := refresh refreshed app d) in *. injection Hrun as _ <- _.
  specialize (Hstr k).
  destruct (fieldOf refreshed k) as [f|] eqn:Hf; [|by apply attr_frame].
  destruct (indexString app f) as [v|] eqn:Hv; [|by apply attr_frame].
  assert ((k, f) ∈ refreshed) as Hin.
  { by apply (elem_of_list_to_map_2 (M := gmap string)). }
  rewrite <- (Hecho resp w1 b app rest eq_refl Hst Hb Hit k f v Hin Hv).
  apply attr_stored; [|done]. rewrite Hsch. by eapply refreshed_attrs.
Qed.

(** X6.  Round trip on the Application schema.  Suppose the item that the
    server returns to the read request carries, for each refreshed
    attribute, either no string field or the value the attribute reads as
    locally.  Then after Read, after Create (whose Read asks for the new
    Id) and after Update, every attribute reads as it did before the call,
    whatever the handler returns. *)
Theorem echo_round_trip m d w r d' w' :
  schema.sch d = applicationSchema →
  (resourceAppScanApplicationRead m d w = (r, d', w') →
   (∀ resp w1 b app rest,
      Client m (appReadRequest m (schema.Id d)) w = (Ok resp, w1) →
      StatusCode resp = 200 → Body resp = Ok b →
      UnmarshalAppItems b = Ok (app :: rest) →
      ∀ a f v, (a, f) ∈ refreshed → indexString app f = Some v → v = attr d a) →
   ∀ k, attr d' k = attr d k) ∧
  (resourceAppScanApplicationCreate m d w = (r, d', w') →
   (∀ resp w1 b result id resp' w2 b' app rest,
      Client m (appCreateRequest m (createPayload d)) w = (Ok resp, w1) →
      Body resp = Ok b → UnmarshalObject b = Ok result →
      indexString result "Id" = Some id →
      Client m (appReadRequest m id) w1 = (Ok resp', w2) →
      StatusCode resp' = 200 → Body resp' = Ok b' →
      UnmarshalAppItems b' = Ok (app :: rest) →
      ∀ a f v, (a, f) ∈ refreshed → indexString app f = Some v → v = attr d a) →
   ∀ k, attr d' k = attr d k) ∧
  (resourceAppScanApplicationUpdate m d w = (r, d', w') →
   (∀ resp w1 resp' w2 b app rest,
      Client m (appUpdateRequest m (schema.Id d) (updatePayload d)) w
        = (Ok resp, w1) →
      Client m (appReadRequest m (schema.Id d)) w1 = (Ok resp', w2) →
      StatusCode resp' = 200 → Body resp' = Ok b →
      UnmarshalAppItems b = Ok (app :: rest) →
      ∀ a f v, (a, f) ∈ refreshed → indexString app f = Some v → v = attr d a) →
   ∀ k, attr d' k = attr d k).
Proof.
  intros Hs. split; [by apply Read_echo|]. split.
  2:{ rewrite (Update_run _ _ _ Hs). intros Hrun Hecho.
      destruct (Client m _ w) as [[resp|] w1] eqn:Hdo;
        [|by injection Hrun as _ <- _].
      destruct (negb _); [by injection Hrun as _ <- _|].
      eapply Read_echo; [done|exact Hrun|].
      intros resp' w2 b app rest.
      exact (Hecho resp w1 resp' w2 b app rest eq_refl). }
  rewrite (Create_run _ _ _ Hs). intros Hrun Hecho.
  destruct (Client m _ w) as [[resp|] w1] eqn:Hdo;
    [|by injection Hrun as _ <- _].
  destruct (_ && _); [by injection Hrun as _ <- _|].
  destruct (Body resp) as [b|] eqn:Hb; [|by injection Hrun as _ <- _].
  destruct (UnmarshalObject b) as [result|] eqn:Hres;
    [|by injection Hrun as _ <- _].
  destruct (indexString result "Id") as [id|] eqn:Hidx;
    [|by injection Hrun as _ <- _].
  destruct (bool_decide _); [by injection Hrun as _ <- _|].
  intros k.
  change (attr d k) with (attr (schema.SetId id d) k).
  eapply Read_echo; [done|exact Hrun|].
  intros resp' w2 b' app rest.
  exact (Hecho resp w1 b result id resp' w2 b' app rest eq_refl Hb Hres Hidx).
Qed.

End ApplicationMore.

(** ** The requests the handlers send *)

Section Calls.

Context `{env : Env}.

Lemma apiCall_read methods m id :
  "GET" ∈ methods → apiCall methods m (appReadRequest m id).
Proof. intros H. split; [done|]. split; [reflexivity|]. by exists "Apps". Qed.

Lemma apiCall_lookup methods m collection query :
  "GET" ∈ methods → apiCall methods m (lookupRequest m collection query).
Proof. intros H. split; [done|]. split; [reflexivity|]. by exists collection. Qed.

Lemma Read_agrees methods m c d w :
  "GET" ∈ methods →
  (∀ req w0, apiCall methods m req → c req w0 = Client m req w0) →
  resourceAppScanApplicationRead (withClient c m) d w =
  resourceAppScanApplicationRead m d w.
Proof.
  intros Hget H. rewrite !Read_run.
  change (Client (withClient c m)) with c.
  change (appReadRequest (withClient c m)) with (appReadRequest m).
  by rewrite H by by apply apiCall_read.
Qed.

(** X7.  The requests of the Application handlers.  The outcome of Read
    depends on the client only through its answers to GET requests that
    carry the bearer token of [m] on a URL under [/api/v4/] of the endpoint
    of [m]: a client that agrees with the one of [m] on those requests
    gives the same result, state and world.  The same holds for Delete with
    DELETE requests, and, on the Application schema, for Create with POST
    and GET requests and for Update with PUT and GET requests.  So no
    handler sends a request without the token, outside that path, or of
    another method. *)
Theorem application_calls m c d w :
  ((∀ req w0, apiCall ["GET"] m req → c req w0 = Client m req w0) →
     resourceAppScanApplicationRead (withClient c m) d w =
     resourceAppScanApplicationRead m d w) ∧
  ((∀ req w0, apiCall ["DELETE"] m req → c req w0 = Client m req w0) →
     resourceAppScanApplicationDelete (withClient c m) d w =
     resourceAppScanApplicationDelete m d w) ∧
  (schema.sch d = applicationSchema →
   (∀ req w0, apiCall ["POST"; "GET"] m req → c req w0 = Client m req w0) →
     resourceAppScanApplicationCreate (withClient c m) d w =
     resourceAppScanApplicationCreate m d w) ∧
  (schema.sch d = applicationSchema →
   (∀ req w0, apiCall ["PUT"; "GET"] m req → c req w0 = Client m req w0) →
     resourceAppScanApplicationUpdate (withClient c m) d w =
     resourceAppScanApplicationUpdate m d w).
Proof.
  split_and!.
  - apply Read_agrees. compute_done.
  - intros H. rewrite !Delete_run.
    change (Client (withClient c m)) with c.
    change (appDeleteRequest (withClient c m)) with (appDeleteRequest m).
    rewrite H; [done|].
    split; [compute_done|]. split; [reflexivity|].
    by exists ("Apps/" +:+ schema.Id d).
  - intros Hs H. rewrite !(Create_run _ _ _ Hs).
    change (Client (withClient c m)) with c.
    change (appCreateRequest (withClient c m)) with (appCreateRequest m).
    rewrite H.
    2:{ split; [compute_done|]. split; [reflexivity|]. by exists "Apps". }
    destruct (Client m _ w) as [[resp|] w1]; [|done].
    destruct (_ && _); [done|].
    destruct (Body resp) as [b|]; [|done].
    destruct (UnmarshalObject b) as [result|]; [|done].
    destruct (indexString result "Id") as [id|]; [|done].
    destruct (bool_decide _); [done|].
    apply (Read_agrees ["POST"; "GET"]); [compute_done|done].
  - intros Hs H. rewrite !(Update_run _ _ _ Hs).
    change (Client (withClient c m)) with c.
    change (appUpdateRequest (withClient c m)) with (appUpdateRequest m).
    rewrite H.
    2:{ split; [compute_done|]. split; [reflexivity|].
        by exists ("Apps/" +:+ schema.Id d). }
    destruct (Client m _ w) as [[resp|] w1]; [|done].
    destruct (negb _); [done|].
    apply (Read_agrees ["PUT"; "GET"]); [compute_done|done].
Qed.

(** X8.  The requests of the data sources.  On the resource data of its
    schema, the outcome of each of the three data-source reads depends on
    the client only through its answers to GET requests that carry the
    bearer token of [m] on a URL under [/api/v4/] of the endpoint of [m]:
    the data sources never send a request that writes. *)
Theorem data_source_calls m c d w :
  (∀ req w0, apiCall ["GET"] m req → c req w0 = Client m req w0) →
  (schema.sch d = assetGroupsSchema →
     dataSourceAssetGroupsRead (withClient c m) d w =
     dataSourceAssetGroupsRead m d w) ∧
  (schema.sch d = assetGroupSchema →
     dataSourceAssetGroupRead (withClient c m) d w =
     dataSourceAssetGroupRead m d w) ∧
  (schema.sch d = businessUnitSchema →
     dataSourceBusinessUnitRead (withClient c m) d w =
     dataSourceBusinessUnitRead m d w).
Proof.
  intros H. split_and!; intros Hs.
  - rewrite !(AssetGroupsRead_run _ _ _ Hs).
    change (Client (withClient c m)) with c.
    change (lookupRequest (withClient c m)) with (lookupRequest m).
    by rewrite H by (apply apiCall_lookup; compute_done).
  - rewrite !(AssetGroupRead_run _ _ _ Hs).
    change (Client (withClient c m)) with c.
    change (lookupRequest (withClient c m)) with (lookupRequest m).
    by rewrite H by (apply apiCall_lookup; compute_done).
  - rewrite !(BusinessUnitRead_run _ _ _ Hs).
    change (Client (withClient c m)) with c.
    change (lookupRequest (withClient c m)) with (lookupRequest m).
    by rewrite H by (apply apiCall_lookup; compute_done).
Qed.

End Calls.

(** ** The Application resource of main.go *)

Section MainApplication.

Context `{env : Env}.

Lemma main_Create_run m d w :
  schema.sch d = main.applicationSchema →
  main.resourceAppScanApplicationCreate m d w =
  match Client m (appCreateRequest m (mainCreatePayload d)) w with
  | (Err e, w') => (Err e, d, w')
  | (Ok resp, w') =>
      if negb (StatusCode resp =? StatusCreated) && negb (StatusCode resp =? StatusOK)
      then (Err (CreateFailed (Status resp)), d, w')
      else
        match Body resp with
        | Err e => (Err e, d, w')
        | Ok b =>
            match UnmarshalObject b with
            | Err e => (Err e, d, w')
            | Ok result =>
                match indexString result "Id" with
                | Some id =>
                    if bool_decide (id = "") then (Err CreateFailedNoId, d, w')
                    else main.resourceAppScanApplicationRead m (schema.SetId id d) w'
                | None => (Err CreateFailedNoId, d, w')
                end
            end
        end
  end.
Proof.
  intros Hs.
  pose proof (λ k H, Get_string d k (main_attrs d k Hs H)) as HG.
  unfold main.resourceAppScanApplicationCreate, mainCreatePayload,
    appCreateRequest, jsonContent, bearer, attr.
  run_with HG.
  destruct (Client m _ w) as [[resp|e] w']; [|reflexivity].
  destruct (_ && _); [reflexivity|].
  destruct (Body resp); [|reflexivity].
  destruct (UnmarshalObject _); [|reflexivity].
  destruct (indexString _ _); [|reflexivity].
  destruct (bool_decide _); reflexivity.
Qed.

Lemma main_Update_run m d w :
  schema.sch d = main.applicationSchema →
  main.resourceAppScanApplicationUpdate m d w =
  match Client m (appUpdateRequest m (schema.Id d) (mainUpdatePayload d)) w with
  | (Err e, w') => (Err e, d, w')
  | (Ok resp, w') =>
      if negb (StatusCode resp =? StatusOK)
      then (Err (UpdateFailed (Status resp)), d, w')
      else main.resourceAppScanApplicationRead m d w'
  end.
Proof.
  intros Hs.
  pose proof (λ k H, Get_string d k (main_attrs d k Hs H)) as HG.
  unfold main.resourceAppScanApplicationUpdate, mainUpdatePayload,
    appUpdateRequest, jsonContent, bearer, attr.
  run_with HG.
  destruct (Client m _ w) as [[resp|e] w']; [|reflexivity].
  destruct (negb _); reflexivity.
Qed.

(** X9.  The Read of main.go.  On status 404 and on status 200 without an
    item, nil is returned and the local id is empty afterwards, everything
    else being as it was; any other status than 200 gives the ReadFailed
    error with [d] as it was.  On a reply of status 200 with a first item
    [app], on the resource data of the schema of main.go, nil is returned
    and only name and description are refreshed, each from the field Name
    or Description when [app] holds it as a string; every other string
    attribute, the id, the schema and the lists stay, and asset_group_id
    reads as before whatever AssetGroupId [app] carries. *)
Theorem main_Read_contract m d w resp w' :
  Client m (appReadRequest m (schema.Id d)) w = (Ok resp, w') →
  (StatusCode resp = 404 →
     ∃ d', main.resourceAppScanApplicationRead m d w = (Ok (), d', w') ∧
           schema.id d' = "" ∧ schema.strs d' = schema.strs d ∧
           schema.lists d' = schema.lists d ∧ schema.sch d' = schema.sch d) ∧
  (StatusCode resp ≠ 404 → StatusCode resp ≠ 200 →
     main.resourceAppScanApplicationRead m d w =
       (Err (ReadFailed "application" (Status resp)), d, w')) ∧
  (∀ b, StatusCode resp = 200 → Body resp = Ok b →
     UnmarshalAppItems b = Ok [] →
     ∃ d', main.resourceAppScanApplicationRead m d w = (Ok (), d', w') ∧
           schema.id d' = "" ∧ schema.strs d' = schema.strs d ∧
           schema.lists d' = schema.lists d ∧ schema.sch d' = schema.sch d) ∧
  (∀ b app rest, StatusCode resp = 200 → Body resp = Ok b →
     UnmarshalAppItems b = Ok (app :: rest) →
     schema.sch d = main.applicationSchema →
     ∃ d', main.resourceAppScanApplicationRead m d w = (Ok (), d', w') ∧
       schema.sch d' = schema.sch d ∧
       schema.id d' = schema.id d ∧
       schema.lists d' = schema.lists d ∧
       schema.strs d' !! "name" =
         match indexString app "Name" with
         | Some v => Some v
         | None => schema.strs d !! "name"
         end ∧
       schema.strs d' !! "description" =
         match indexString app "Description" with
         | Some v => Some v
         | None => schema.strs d !! "description"
         end ∧
       (∀ k, k ≠ "name" → k ≠ "description" →
             schema.strs d' !! k = schema.strs d !! k) ∧
       attr d' "asset_group_id" = attr d "asset_group_id").
Proof.
  intros Hdo. rewrite main_Read_run, Hdo. unfold StatusNotFound, StatusOK.
  split_and!.
  - intros ->. by exists (schema.SetId "" d).
  - intros H404 H200.
    destruct (Z.eqb_spec (StatusCode resp) 404); [done|].
    destruct (Z.eqb_spec (StatusCode resp) 200); [done|]. reflexivity.
  - intros b -> -> ->. by exists (schema.SetId "" d).
  - intros b app rest -> -> -> Hs. cbn -[refresh].
    fold mainRefreshed.
    destruct (refresh_frame mainRefreshed app d) as [Hsch Hid].
    destruct (refresh_frame_any mainRefreshed app d) as [_ Hother].
    destruct (refresh_strings mainRefreshed app d) as [Hl Hstr].
    { compute_done. }
    { intros a f Hin. apply main_attrs; [done|]. unfold mainRefreshed in Hin.
      repeat (apply elem_of_cons in Hin as [[= -> ->]|Hin]; [compute_done|]).
      by apply elem_of_nil in Hin. }
    eexists. split; [reflexivity|]. split_and!; try done.
    + apply (Hstr "name").
    + apply (Hstr "description").
    + intros k Hn Hd. apply Hother. cbn. set_solver.
    + apply attr_frame; [done|]. apply Hother. compute_done.
Qed.

(** X10.  The Create of main.go, on the resource data of its schema.  The
    request is a POST to the collection endpoint whose payload holds Name,
    Description and AssetGroupId with the values of the attributes, and
    nothing else (no BusinessImpact and no BusinessUnitId).  An error of the
    transport is returned as it is; a status other than 200 and 201 gives
    the CreateFailed error, and so does a decoded reply whose Id is missing,
    not a string or empty, with [d] as it was; a reply of status 200 or 201
    with a non-empty string Id continues as the Read of main.go on [d] with
    its id equal to that Id and nothing else changed. *)
Theorem main_Create_contract m d w :
  schema.sch d = main.applicationSchema →
  let payload := mainCreatePayload d in
  let post := appCreateRequest m payload in
  (Method post = "POST" ∧
   URL post = ApiEndpoint m +:+ "/api/v4/Apps" ∧
   Payload post = Some payload ∧
   dom payload = {[ "Name"; "Description"; "AssetGroupId" ]} ∧
   payload !! "Name" = Some (AString (attr d "name")) ∧
   payload !! "Description" = Some (AString (attr d "description")) ∧
   payload !! "AssetGroupId" = Some (AString (attr d "asset_group_id"))) ∧
  (∀ e w', Client m post w = (Err e, w') →
     main.resourceAppScanApplicationCreate m d w = (Err e, d, w')) ∧
  (∀ resp w', Client m post w = (Ok resp, w') →
     (StatusCode resp ≠ 200 → StatusCode resp ≠ 201 →
        main.resourceAppScanApplicationCreate m d w =
          (Err (CreateFailed (Status resp)), d, w')) ∧
     (∀ b result,
        StatusCode resp = 200 ∨ StatusCode resp = 201 →
        Body resp = Ok b → UnmarshalObject b = Ok result →
        (indexString result "Id" = None ∨ indexString result "Id" = Some "" →
           main.resourceAppScanApplicationCreate m d w =
             (Err CreateFailedNoId, d, w')) ∧
        (∀ id, indexString result "Id" = Some id → id ≠ "" →
           ∃ d1, schema.id d1 = id ∧ schema.strs d1 = schema.strs d ∧
                 schema.lists d1 = schema.lists d ∧
                 schema.sch d1 = schema.sch d ∧
                 main.resourceAppScanApplicationCreate m d w =
                   main.resourceAppScanApplicationRead m d1 w'))).
Proof.
  intros Hs payload post.
  split; [|rewrite (main_Create_run _ _ _ Hs); fold payload; fold post; split].
  - subst post payload. unfold mainCreatePayload. split_and!; reflexivity.
  - by intros e w' ->.
  - intros resp w' ->. unfold StatusCreated, StatusOK. split.
    + intros H200 H201.
      destruct (Z.eqb_spec (StatusCode resp) 201); [done|].
      by destruct (Z.eqb_spec (StatusCode resp) 200).
    + intros b result Hst -> ->.
      assert (negb (StatusCode resp =? 201) && negb (StatusCode resp =? 200)
              = false) as ->.
      { by destruct Hst as [-> | ->]. }
      split.
      * by intros [-> | ->].
      * intros id -> Hid. rewrite bool_decide_eq_false_2 by done.
        by exists (schema.SetId id d).
Qed.

(** X11.  The Update of main.go, on the resource data of its schema.  The
    request is a PUT to the application of the local id whose payload holds
    Name and Description and nothing else.  An error of the transport is
    returned as it is; a status other than 200 gives the UpdateFailed error
    with [d] as it was; a reply of status 200 continues as the Read of
    main.go.  Whatever Update returns and whatever the server answers,
    asset_group_id reads afterwards as it did before. *)
Theorem main_Update_contract m d w :
  schema.sch d = main.applicationSchema →
  let payload := mainUpdatePayload d in
  let put := appUpdateRequest m (schema.Id d) payload in
  (Method put = "PUT" ∧
   URL put = ApiEndpoint m +:+ "/api/v4/Apps/" +:+ schema.id d ∧
   Payload put = Some payload ∧
   dom payload = {[ "Name"; "Description" ]} ∧
   payload !! "Name" = Some (AString (attr d "name")) ∧
   payload !! "Description" = Some (AString (attr d "description"))) ∧
  (∀ e w', Client m put w = (Err e, w') →
     main.resourceAppScanApplicationUpdate m d w = (Err e, d, w')) ∧
  (∀ resp w', Client m put w = (Ok resp, w') →
     (StatusCode resp ≠ 200 →
        main.resourceAppScanApplicationUpdate m d w =
          (Err (UpdateFailed (Status resp)), d, w')) ∧
     (StatusCode resp = 200 →
        main.resourceAppScanApplicationUpdate m d w =
          main.resourceAppScanApplicationRead m d w')) ∧
  (∀ r d' w'', main.resourceAppScanApplicationUpdate m d w = (r, d', w'') →
     attr d' "asset_group_id" = attr d "asset_group_id").
Proof.
  intros Hs payload put.
  split; [|rewrite (main_Update_run _ _ _ Hs); fold payload; fold put;
           split_and!].
  - subst put payload. unfold mainUpdatePayload. split_and!; reflexivity.
  - by intros e w' ->.
  - intros resp w' ->. unfold StatusOK. split.
    + intros H200. by destruct (Z.eqb_spec (StatusCode resp) 200).
    + by intros ->.
  - intros r d' w'' H.
    destruct (Client m _ w) as [[resp|] w1]; [|by injection H as _ <- _].
    destruct (negb _); [by injection H as _ <- _|].
    rewrite main_Read_run in H.
    destruct (Client m _ w1) as [[resp'|] w2]; [|by injection H as _ <- _].
    destruct (_ =? StatusNotFound); [by injection H as _ <- _|].
    destruct (negb _); [by injection H as _ <- _|].
    destruct (Body resp') as [b|]; [|by injection H as _ <- _].
    destruct (UnmarshalAppItems b) as [[|app rest]|];
      [by injection H as _ <- _| |by injection H as _ <- _].
    fold mainRefreshed in H.
    destruct (refresh_frame mainRefreshed app d) as [Hsch _].
    destruct (refresh_frame_any mainRefreshed app d) as [_ Hother].
    set (d1 := refresh mainRefreshed app d) in *. injection H as _ <- _.
    apply attr_frame; [done|]. apply Hother. compute_done.
Qed.

End MainApplication.

(** ** Failures of the data sources and of the login *)

Section Failures.

Context `{env : Env}.

Lemma found_ok x d w e d' w' :
  isStringAttr (schema.sch d) "name" →
  isStringAttr (schema.sch d) "description" →
  (d_SetId (Id x);;
   d_Set "name" (AString (Name x));;
   d_Set "description" (AString (Description x))) d w ≠ (Err e, d', w').
Proof. intros Hn Hd. by rewrite found_run. Qed.

(** X12.  Failures of the data sources, each on the resource data of its
    schema.  A single-item lookup (asset group, business unit) whose
    name-filtered request is answered with a status other than 200 returns
    the ReadFailed error; and whenever one of the three data-source reads
    returns an error, [d] is as it was before the call: id, name,
    description and asset_groups are only written when the read succeeds. *)
Theorem data_source_failures m d w :
  (schema.sch d = assetGroupSchema →
   (∀ resp w', Client m (lookupRequest m "AssetGroups"
                           (nameFilter (attr d "name"))) w = (Ok resp, w') →
      StatusCode resp ≠ 200 →
      dataSourceAssetGroupRead m d w =
        (Err (ReadFailed "asset group" (Status resp)), d, w')) ∧
   (∀ e d' w', dataSourceAssetGroupRead m d w = (Err e, d', w') → d' = d)) ∧
  (schema.sch d = businessUnitSchema →
   (∀ resp w', Client m (lookupRequest m "BusinessUnits"
                           (nameFilter (attr d "name"))) w = (Ok resp, w') →
      StatusCode resp ≠ 200 →
      dataSourceBusinessUnitRead m d w =
        (Err (ReadFailed "BusinessUnit" (Status resp)), d, w')) ∧
   (∀ e d' w', dataSourceBusinessUnitRead m d w = (Err e, d', w') → d' = d)) ∧
  (schema.sch d = assetGroupsSchema →
   ∀ e d' w', dataSourceAssetGroupsRead m d w = (Err e, d', w') → d' = d).
Proof.
  split_and!; intros Hs.
  - pose proof (lookup_attrs _ d "name" Hs (or_introl eq_refl) ltac:(compute_done)) as Hn.
    pose proof (lookup_attrs _ d "description" Hs (or_introl eq_refl) ltac:(compute_done)) as Hd.
    rewrite (AssetGroupRead_run _ _ _ Hs). unfold StatusOK. split.
    + intros resp w' -> H200. by destruct (Z.eqb_spec (StatusCode resp) 200).
    + intros e d' w'.
      destruct (Client m _ w) as [[resp|] w1]; [|congruence].
      destruct (negb _); [congruence|].
      destruct (Body resp) as [b|]; [|congruence].
      destruct (UnmarshalItems b) as [[|x [|y rest]]|]; try congruence.
      intros H. by apply found_ok in H.
  - pose proof (lookup_attrs _ d "name" Hs (or_intror eq_refl) ltac:(compute_done)) as Hn.
    pose proof (lookup_attrs _ d "description" Hs (or_intror eq_refl) ltac:(compute_done)) as Hd.
    rewrite (BusinessUnitRead_run _ _ _ Hs). unfold StatusOK. split.
    + intros resp w' -> H200. by destruct (Z.eqb_spec (StatusCode resp) 200).
    + intros e d' w'.
      destruct (Client m _ w) as [[resp|] w1]; [|congruence].
      destruct (negb _); [congruence|].
      destruct (Body resp) as [b|]; [|congruence].
      destruct (UnmarshalItems b) as [[|x [|y rest]]|]; try congruence.
      intros H. by apply found_ok in H.
  - intros e d' w'. rewrite (AssetGroupsRead_run _ _ _ Hs).
    destruct (Client m _ w) as [[resp|] w1]; [|congruence].
    destruct (negb _); [congruence|].
    destruct (Body resp) as [b|]; [|congruence].
    destruct (UnmarshalItems b) as [items|]; congruence.
Qed.

(** X13.  Failures of the login, on the configuration data of the provider
    schema.  The login request carries no Authorization header and its
    payload holds KeyId and KeySecret and nothing else.  An error of the
    client, of reading the body of a 200 reply, or of decoding it is
    returned as it is, with the configuration untouched.  A client that is
    returned keeps the HTTP client the login was made with. *)
Theorem login_failures client d w :
  schema.sch d = providerSchema →
  let login := loginRequest (attr d "api_endpoint") (attr d "key_id")
                 (attr d "key_secret") in
  (Header login !! "Authorization" = None ∧
   Payload login = Some {[ "KeyId" := AString (attr d "key_id");
                           "KeySecret" := AString (attr d "key_secret") ]}) ∧
  (∀ e w', client login w = (Err e, w') →
     providerConfigure client d w = (Err e, d, w')) ∧
  (∀ resp w', client login w = (Ok resp, w') → StatusCode resp = 200 →
     (∀ e, Body resp = Err e →
        providerConfigure client d w = (Err e, d, w')) ∧
     (∀ b e, Body resp = Ok b → UnmarshalAuthResp b = Err e →
        providerConfigure client d w = (Err e, d, w'))) ∧
  (∀ c d' w', providerConfigure client d w = (Ok c, d', w') → Client c = client).
Proof.
  intros Hs login. rewrite (providerConfigure_run _ _ _ Hs). fold login.
  split_and!.
  - reflexivity.
  - reflexivity.
  - by intros e w' ->.
  - intros resp w' -> ->. cbn. split; [by intros e ->|by intros b e -> ->].
  - intros c d' w'.
    destruct (client login w) as [[resp|] w1]; [|discriminate].
    destruct (negb _); [discriminate|].
    destruct (Body resp) as [b|]; [|discriminate].
    destruct (UnmarshalAuthResp b) as [a|]; [|discriminate].
    destruct (bool_decide _); [discriminate|]. by intros [= <- _ _].
Qed.

End Failures.

(** ** Further runs on the test environment *)

Section MoreScenarios.

Import Mock.

Lemma Read_idempotent_witness :
  ∃ d1,
    resourceAppScanApplicationRead (appscan healthy) app123 [] =
      (Ok (), d1, [appReadRequest (appscan healthy) "123"]) ∧
    resourceAppScanApplicationRead (appscan healthy) d1
      [appReadRequest (appscan healthy) "123"] =
      (Ok (), d1, [appReadRequest (appscan healthy) "123";
                   appReadRequest (appscan healthy) "123"]).
Proof.
  eapply (Read_idempotent (appscan healthy) app123 []); reflexivity.
Defined.

Lemma success_leaves_id_witness :
  schema.sch app123 = applicationSchema ∧
  schema.id app123 = "123" ∧
  (resourceAppScanApplicationUpdate (appscan forgetful) app123 []).1.1 = Ok () ∧
  schema.id (resourceAppScanApplicationUpdate (appscan forgetful) app123 []).1.2
    = "" ∧
  schema.strs (resourceAppScanApplicationUpdate (appscan forgetful) app123 []).1.2
    = schema.strs app123.
Proof.
  split; [reflexivity|]. split; [reflexivity|]. split; [vm_compute; reflexivity|].
  destruct (success_leaves_id (appscan forgetful) app123 []
              (resourceAppScanApplicationUpdate (appscan forgetful) app123 []).1.2
              (resourceAppScanApplicationUpdate (appscan forgetful) app123 []).2
              eq_refl) as [_ H].
  destruct H as (resp & w1 & resp' & _ & _ & Hdo' & Hcase);
    [vm_compute; reflexivity|].
  destruct Hcase as [(_ & Hid & Hstr & _) | ((H200 & _) & _)].
  - split; [exact Hid|exact Hstr].
  - exfalso.
    assert (Client (appscan forgetful)
              (appReadRequest (appscan forgetful) (schema.Id app123)) w1 =
            (notFound,
             appReadRequest (appscan forgetful) (schema.Id app123) :: w1))
      as K by reflexivity.
    rewrite K in Hdo'. unfold notFound, reply in Hdo'.
    injection Hdo' as <- _. discriminate H200.
Defined.

Lemma Read_frame_witness :
  (resourceAppScanApplicationRead (appscan healthy) mainApp []).1.1 = Ok () ∧
  schema.sch (resourceAppScanApplicationRead (appscan healthy) mainApp []).1.2
    = main.applicationSchema ∧
  schema.id (resourceAppScanApplicationRead (appscan healthy) mainApp []).1.2
    = "123" ∧
  main.applicationSchema !! "business_impact" = None.
Proof.
  destruct (Read_frame (appscan healthy) mainApp []
              (resourceAppScanApplicationRead (appscan healthy) mainApp []).1.1
              (resourceAppScanApplicationRead (appscan healthy) mainApp []).1.2
              (resourceAppScanApplicationRead (appscan healthy) mainApp []).2)
    as (Hsch & _ & _ & _ & Hok).
  { vm_compute. reflexivity. }
  edestruct Hok as [Hr Hid]; [reflexivity..|].
  split; [exact Hr|]. split; [exact Hsch|]. split; [exact Hid|reflexivity].
Defined.

Lemma echo_round_trip_witness :
  schema.sch newApp = applicationSchema ∧
  attr (resourceAppScanApplicationCreate (appscan healthy) newApp []).1.2
    "business_impact" = "Unspecified" ∧
  attr (resourceAppScanApplicationCreate (appscan healthy) newApp []).1.2
    "name" = "App1".
Proof.
  split; [reflexivity|].
  destruct (echo_round_trip (appscan healthy) newApp []
              (resourceAppScanApplicationCreate (appscan healthy) newApp []).1.1
              (resourceAppScanApplicationCreate (appscan healthy) newApp []).1.2
              (resourceAppScanApplicationCreate (appscan healthy) newApp []).2
              eq_refl) as (_ & H & _).
  assert (∀ k, attr (resourceAppScanApplicationCreate (appscan healthy) newApp []).1.2 k
               = attr newApp k) as Hecho.
  { apply H; [vm_compute; reflexivity|].
    intros resp w1 b result id resp' w2 b' app rest Hdo Hb Hres Hidx Hdo' _ Hb' Hit
      a f v Hin Hv.
    assert (Client (appscan healthy)
              (appCreateRequest (appscan healthy) (createPayload newApp)) [] =
            (created, [appCreateRequest (appscan healthy) (createPayload newApp)]))
      as K by reflexivity.
    rewrite K in Hdo. unfold created, reply in Hdo. injection Hdo as <- <-.
    cbn [Body] in Hb. injection Hb as <-.
    assert (UnmarshalObject (doc [("Id", AString "123")]) =
            Ok (list_to_map [("Id", AString "123")])) as K1 by reflexivity.
    rewrite K1 in Hres. injection Hres as <-.
    vm_compute in Hidx. injection Hidx as <-.
    assert (Client (appscan healthy) (appReadRequest (appscan healthy) "123")
              [appCreateRequest (appscan healthy) (createPayload newApp)] =
            (found [app1],
             [appReadRequest (appscan healthy) "123";
              appCreateRequest (appscan healthy) (createPayload newApp)]))
      as K3 by reflexivity.
    rewrite K3 in Hdo'. unfold found, reply in Hdo'. injection Hdo' as <- <-.
    cbn [Body] in Hb'. injection Hb' as <-.
    assert (Ok [app1] = Ok (app :: rest)) as K4
      by (rewrite <- Hit; vm_compute; reflexivity).
    clear Hit. injection K4 as <- <-.
    unfold refreshed in Hin.
    repeat (apply elem_of_cons in Hin as [[= -> ->]|Hin];
            [vm_compute in Hv; try discriminate Hv; injection Hv as <-;
             vm_compute; reflexivity|]).
    by apply elem_of_nil in Hin. }
  split; rewrite Hecho; reflexivity.
Defined.

Lemma guarded_agrees methods server req w0 :
  apiCall methods (appscan server) req →
  guarded server req w0 = Client (appscan server) req w0.
Proof.
  intros (_ & Hauth & _). unfold guarded.
  rewrite bool_decide_eq_true_2; [reflexivity|exact Hauth].
Defined.

Lemma application_calls_witness :
  resourceAppScanApplicationRead (withClient (guarded healthy) (appscan healthy))
    app123 [] =
  resourceAppScanApplicationRead (appscan healthy) app123 [] ∧
  resourceAppScanApplicationCreate (withClient (guarded healthy) (appscan healthy))
    newApp [] =
  resourceAppScanApplicationCreate (appscan healthy) newApp [].
Proof.
  split.
  - apply (application_calls (appscan healthy) (guarded healthy) app123 []).
    intros req w0. apply guarded_agrees.
  - apply (application_calls (appscan healthy) (guarded healthy) newApp []);
      [reflexivity|].
    intros req w0. apply guarded_agrees.
Defined.

Lemma data_source_calls_witness :
  dataSourceAssetGroupRead (withClient (guarded oneGroup) (appscan oneGroup))
    prodGroup [] =
  dataSourceAssetGroupRead (appscan oneGroup) prodGroup [].
Proof.
  apply (data_source_calls (appscan oneGroup) (guarded oneGroup) prodGroup []);
    [|reflexivity].
  intros req w0. apply guarded_agrees.
Defined.

Lemma main_Read_contract_witness :
  (∃ d', main.resourceAppScanApplicationRead (appscan healthy) mainApp [] =
           (Ok (), d', [appReadRequest (appscan healthy) "123"]) ∧
         schema.strs d' !! "name" = Some "App1" ∧
         attr d' "asset_group_id" = "AG9" ∧
         indexString app1 "AssetGroupId" = Some "AG1") ∧
  (∃ d', main.resourceAppScanApplicationRead (appscan forgetful) mainApp [] =
           (Ok (), d', [appReadRequest (appscan forgetful) "123"]) ∧
         schema.id mainApp = "123" ∧ schema.id d' = "" ∧
         schema.strs d' = schema.strs mainApp).
Proof.
  split.
  - edestruct (main_Read_contract (appscan healthy) mainApp [])
      as (_ & _ & _ & H); [reflexivity|].
    edestruct H as (d' & Hrun & _ & _ & _ & Hname & _ & _ & Hag);
      [reflexivity..|].
    exists d'. split; [exact Hrun|]. split; [exact Hname|].
    split; [exact Hag|reflexivity].
  - edestruct (main_Read_contract (appscan forgetful) mainApp [])
      as (H & _); [reflexivity|].
    destruct H as (d' & Hrun & Hid & Hstr & _); [reflexivity|].
    exists d'. split; [exact Hrun|]. split; [reflexivity|].
    split; [exact Hid|exact Hstr].
Defined.

Lemma main_Create_contract_witness :
  schema.sch mainApp = main.applicationSchema ∧
  dom (mainCreatePayload mainApp) = {[ "Name"; "Description"; "AssetGroupId" ]} ∧
  Payload (appCreateRequest (appscan healthy) (mainCreatePayload mainApp)) =
    Some (mainCreatePayload mainApp) ∧
  mainCreatePayload mainApp !! "AssetGroupId" = Some (AString "AG9") ∧
  ∃ d1,
    schema.id d1 = "123" ∧ schema.strs d1 = schema.strs mainApp ∧
    main.resourceAppScanApplicationCreate (appscan healthy) mainApp [] =
      main.resourceAppScanApplicationRead (appscan healthy) d1
        [appCreateRequest (appscan healthy) (mainCreatePayload mainApp)].
Proof.
  split; [reflexivity|].
  destruct (main_Create_contract (appscan healthy) mainApp [] eq_refl)
    as ((_ & _ & Hpay & Hdom & _ & _ & Hag) & _ & H).
  split; [exact Hdom|]. split; [exact Hpay|].
  split; [rewrite Hag; reflexivity|].
  edestruct H as [_ H']; [reflexivity|].
  edestruct H' as [_ Hid]; [right; reflexivity|reflexivity..|].
  destruct (Hid "123" eq_refl ltac:(discriminate))
    as (d1 & Hd1 & Hstr & _ & _ & Hrun).
  exists d1. split; [exact Hd1|]. split; [exact Hstr|exact Hrun].
Defined.

Lemma main_Update_contract_witness :
  schema.sch mainApp = main.applicationSchema ∧
  Payload (appUpdateRequest (appscan healthy) "123" (mainUpdatePayload mainApp)) =
    Some (mainUpdatePayload mainApp) ∧
  mainUpdatePayload mainApp !! "Name" = Some (AString "Old name") ∧
  mainUpdatePayload mainApp !! "AssetGroupId" = None ∧
  main.resourceAppScanApplicationUpdate (appscan healthy) mainApp [] =
    main.resourceAppScanApplicationRead (appscan healthy) mainApp
      [appUpdateRequest (appscan healthy) "123" (mainUpdatePayload mainApp)] ∧
  attr (main.resourceAppScanApplicationUpdate (appscan healthy) mainApp []).1.2
    "asset_group_id" = "AG9".
Proof.
  split; [reflexivity|].
  destruct (main_Update_contract (appscan healthy) mainApp [] eq_refl)
    as ((_ & _ & Hpay & Hdom & Hname & _) & _ & H & Hag).
  split; [exact Hpay|]. split; [rewrite Hname; reflexivity|].
  split.
  { apply not_elem_of_dom. rewrite Hdom. compute_done. }
  split.
  - edestruct H as [_ H200]; [reflexivity|]. apply H200. reflexivity.
  - apply (Hag (main.resourceAppScanApplicationUpdate (appscan healthy) mainApp []).1.1
               _
               (main.resourceAppScanApplicationUpdate (appscan healthy) mainApp []).2).
    vm_compute. reflexivity.
Defined.

Lemma login_failures_witness :
  schema.sch config = providerSchema ∧
  providerConfigure (client unreachable) config [] =
    (Err (LibError "net/http" "connection refused"), config,
     [loginRequest "https://cloud.appscan.com" "k" "s"]).
Proof.
  split; [reflexivity|].
  destruct (login_failures (client unreachable) config [] eq_refl) as (_ & H & _).
  apply H. reflexivity.
Defined.

Lemma Delete_contract_witness :
  (∃ d', resourceAppScanApplicationDelete (appscan healthy) app123 [] =
           (Ok (), d', [appDeleteRequest (appscan healthy) "123"]) ∧
         schema.id app123 = "123" ∧ schema.id d' = "" ∧
         schema.strs d' = schema.strs app123) ∧
  resourceAppScanApplicationDelete (appscan readOnly) app123 [] =
    (Err (DeleteFailed "500 Internal Server Error"), app123,
     [appDeleteRequest (appscan readOnly) "123"]).
Proof.
  split.
  - destruct (Delete_contract (appscan healthy) app123 []) as (_ & _ & H & _).
    edestruct H as [H204 _]; [reflexivity|].
    destruct H204 as (d' & Hrun & Hid & Hstr & _); [right; reflexivity|].
    exists d'. split; [exact Hrun|]. split; [reflexivity|].
    split; [exact Hid|exact Hstr].
  - destruct (Delete_contract (appscan readOnly) app123 []) as (_ & _ & H & _).
    edestruct H as [_ H500]; [reflexivity|]. apply H500; discriminate.
Defined.

Lemma library_errors_pass_through_witness :
  resourceAppScanApplicationRead (appscan unreachable) app123 [] =
    (Err (LibError "net/http" "connection refused"), app123,
     [appReadRequest (appscan unreachable) "123"]) ∧
  resourceAppScanApplicationCreate (appscan unreachable) newApp [] =
    (Err (LibError "net/http" "connection refused"), newApp,
     [appCreateRequest (appscan unreachable) (createPayload newApp)]).
Proof.
  destruct (library_errors_pass_through (appscan unreachable) app123 [])
    as (Hread & _).
  destruct (library_errors_pass_through (appscan unreachable) newApp [])
    as (_ & _ & Hcreate).
  split.
  - apply Hread. reflexivity.
  - destruct (Hcreate eq_refl) as (H & _). apply H. reflexivity.
Defined.

Lemma data_source_failures_witness :
  dataSourceBusinessUnitRead (appscan failingReads) prodUnit [] =
    (Err (ReadFailed "BusinessUnit" "500 Internal Server Error"), prodUnit,
     [lookupRequest (appscan failingReads) "BusinessUnits" (nameFilter "Prod")]).
Proof.
  destruct (data_source_failures (appscan failingReads) prodUnit [])
    as (_ & Hbu & _).
  destruct (Hbu eq_refl) as (H & _).
  apply (H _ _ eq_refl). discriminate.
Defined.

End MoreScenarios.
